(** * Services API: pagination, data accessors and request handlers

    A shallow embedding of the Go packages [pkg/utils], [internal/database]
    and [internal/handlers] of the services API, together with the parts of
    their environment they call into (the Go [int] type, [strconv.Atoi],
    gin's request context, JSON marshalling of the response structs and the
    MySQL store behind [database/sql]); of [internal/config], the route
    table and the single-file server [cmd/api/main.go]; and of the statement
    that closes the seed.

    Go values are modelled as follows.
    - [int] is a 64-bit two's complement integer: a [Z] that every
      arithmetic operator wraps back into [-2^63, 2^63).
    - [string] is a byte string: Rocq's [string].
    - [error] is [option error]: [None] is [nil]; the errors that occur are
      [sql.ErrNoRows], [sql.ErrTxDone] and the driver's own.
    - a slice [[]T] is [option (list T)]: [None] is the nil slice that
      [var xs []T] declares, [Some l] a slice that [append] has produced.
    - package-level state ([database.DB], the logger) lives in a [World]
      that every accessor and handler threads through. *)

From Stdlib Require Import ZArith List String Ascii Bool Lia.
Import ListNotations.

#[local] Set Warnings "-register-all".

Local Open Scope string_scope.
Local Open Scope list_scope.
Local Open Scope Z_scope.

(** ** Go's [int] *)

Module GoInt.

Definition min_int : Z := - 2 ^ 63.
Definition max_int : Z := 2 ^ 63 - 1.

(** The value a 64-bit register holds after an operation whose
    mathematical result is [z]. *)
Definition wrap (z : Z) : Z := (z + 2 ^ 63) mod 2 ^ 64 - 2 ^ 63.

Definition add (a b : Z) : Z := wrap (a + b).
Definition sub (a b : Z) : Z := wrap (a - b).
Definition mul (a b : Z) : Z := wrap (a * b).

(** [a / b]: truncated division; a zero divisor is a run-time panic,
    rendered as [None]. *)
Definition quo (a b : Z) : option Z :=
  if b =? 0 then None else Some (wrap (Z.quot a b)).

Definition in_range (z : Z) : Prop := min_int <= z <= max_int.

End GoInt.

(** ** [strconv] *)

Module strconv.

Definition digit_of (c : ascii) : option Z :=
  let n := Z.of_N (N_of_ascii c) in
  if (48 <=? n) && (n <=? 57) then Some (n - 48) else None.

(** Base-10 digits, most significant first, accumulated onto [acc]. *)
Fixpoint parse_digits (s : string) (acc : Z) : option Z :=
  match s with
  | EmptyString => Some acc
  | String c rest =>
      match digit_of c with
      | Some d => parse_digits rest (acc * 10 + d)
      | None => None
      end
  end.

(** [strconv.Atoi]: an optional sign followed by one or more decimal
    digits, whose value fits an [int].  [None] stands for any non-nil
    error (syntax or range). *)
Definition Atoi (s : string) : option Z :=
  match s with
  | EmptyString => None
  | String c rest =>
      let neg := Ascii.eqb c "-" in
      let digits := if neg || Ascii.eqb c "+" then rest else s in
      match digits with
      | EmptyString => None
      | _ =>
          match parse_digits digits 0 with
          | None => None
          | Some un =>
              let n := if neg then - un else un in
              if (GoInt.min_int <=? n) && (n <=? GoInt.max_int)
              then Some n else None
          end
      end
  end.

Definition digit_char (d : Z) : ascii := ascii_of_N (Z.to_N (48 + d)).

(** Decimal digits of a non-negative [n], prepended to [acc]; [fuel]
    bounds the number of digits written. *)
Fixpoint utoa (fuel : nat) (n : Z) (acc : string) : string :=
  match fuel with
  | O => acc
  | S fuel' =>
      let acc' := String (digit_char (n mod 10)) acc in
      if n <? 10 then acc' else utoa fuel' (n / 10) acc'
  end.

(** [strconv.Itoa] on the [int] range (at most 19 digits). *)
Definition Itoa (n : Z) : string :=
  if n <? 0 then String "-" (utoa 20 (- n) "") else utoa 20 n "".

End strconv.

(** ** [internal/models] *)

Module Service.
Record t := mk {
  ID : string;
  Name : string;
  Slug : string;
  Description : string;
  CreatedAt : string;
  UpdatedAt : string;
  VersionsCount : Z
}.
End Service.

Module Version.
Record t := mk {
  ID : string;
  ServiceID : string;
  Semver : string;
  Status : string;
  Changelog : string;
  CreatedAt : string
}.
End Version.

(** ** [pkg/types]

    Modelled from the spec: the package [pkg/types] is not among the
    sources.  The three structs below have the fields the callers in
    [pkg/utils] and the unit tests name, and the JSON keys of the paginated
    envelope [{page, page_size, total, total_pages, has_next, has_prev}];
    [cmd/api/main.go] declares the same structs. *)

Module PaginationParams.
Record t := mk { Page : Z; PageSize : Z }.
End PaginationParams.

Module SearchParams.
Record t := mk { Query : string; Page : Z; PageSize : Z }.
End SearchParams.

Module Pagination.
Record t := mk {
  Page : Z;
  PageSize : Z;
  Total : Z;
  TotalPages : Z;
  HasNext : bool;
  HasPrev : bool
}.
End Pagination.

(** ** The request context ([gin.Context]) *)

Module gin.

(** What a handler reads from a request: the URL query (key/value pairs in
    the order they appear), the [:id] path parameter, and the outcome of
    [ShouldBindJSON] into a struct of type [B] ([inl msg] when the body
    does not decode). *)
Record Context (B : Type) := mkContext {
  url_query : list (string * string);
  id_param : string;
  json_body : string + B
}.
Arguments mkContext {B}.
Arguments url_query {B}.
Arguments id_param {B}.
Arguments json_body {B}.

(** The first value bound to [key], if any. *)
Fixpoint GetQuery (q : list (string * string)) (key : string) : option string :=
  match q with
  | [] => None
  | (k, v) :: rest => if String.eqb k key then Some v else GetQuery rest key
  end.

(** [c.Query(key)]: the first value of [key], or the empty string. *)
Definition Query {B} (c : Context B) (key : string) : string :=
  match GetQuery (url_query c) key with
  | Some v => v
  | None => ""
  end.

Definition Param {B} (c : Context B) : string := id_param c.

Definition ShouldBindJSON {B} (c : Context B) : string + B := json_body c.

End gin.

(** ** [pkg/utils] *)

Module utils.

(** [GetPaginationParams] *)
Definition GetPaginationParams {B} (c : gin.Context B) : PaginationParams.t :=
  let params := PaginationParams.mk 1 10 in
  let params :=
    let pageStr := gin.Query c "page" in
    if negb (String.eqb pageStr "") then
      match strconv.Atoi pageStr with
      | Some page =>
          if 0 <? page
          then PaginationParams.mk page (PaginationParams.PageSize params)
          else params
      | None => params
      end
    else params in
  let params :=
    let pageSizeStr := gin.Query c "page_size" in
    if negb (String.eqb pageSizeStr "") then
      match strconv.Atoi pageSizeStr with
      | Some pageSize =>
          if 0 <? pageSize
          then PaginationParams.mk (PaginationParams.Page params) pageSize
          else params
      | None => params
      end
    else params in
  params.

(** [GetSearchParams] *)
Definition GetSearchParams {B} (c : gin.Context B) : SearchParams.t :=
  let params := SearchParams.mk (gin.Query c "q") 1 10 in
  let params :=
    let pageStr := gin.Query c "page" in
    if negb (String.eqb pageStr "") then
      match strconv.Atoi pageStr with
      | Some page =>
          if 0 <? page
          then SearchParams.mk (SearchParams.Query params) page
                               (SearchParams.PageSize params)
          else params
      | None => params
      end
    else params in
  let params :=
    let pageSizeStr := gin.Query c "page_size" in
    if negb (String.eqb pageSizeStr "") then
      match strconv.Atoi pageSizeStr with
      | Some pageSize =>
          if 0 <? pageSize
          then SearchParams.mk (SearchParams.Query params)
                               (SearchParams.Page params) pageSize
          else params
      | None => params
      end
    else params in
  params.

(** [CalculatePagination]; [None] is the panic of an integer division by
    zero. *)
Definition CalculatePagination (page pageSize total : Z) : option Pagination.t :=
  match GoInt.quo (GoInt.sub (GoInt.add total pageSize) 1) pageSize with
  | None => None
  | Some totalPages =>
      Some (Pagination.mk page pageSize total totalPages
                          (page <? totalPages) (1 <? page))
  end.

End utils.

(** ** JSON documents written by [c.JSON] *)

Module json.

Inductive value :=
| Null
| Bool (b : bool)
| Number (n : Z)
| Str (s : string)
| Array (items : list value)
| Object (fields : list (string * value)).

(** The member [key] of a JSON object. *)
Fixpoint assoc (fields : list (string * value)) (key : string) : option value :=
  match fields with
  | [] => None
  | (k, v) :: rest => if String.eqb k key then Some v else assoc rest key
  end.

Definition member (key : string) (v : value) : option value :=
  match v with
  | Object fields => assoc fields key
  | _ => None
  end.

(** [gin.H{key: text}] *)
Definition H (key text : string) : value := Object [(key, Str text)].

(** [encoding/json] on the structs, following their [json] tags. *)
Definition of_Service (s : Service.t) : value :=
  Object [("id", Str (Service.ID s));
          ("name", Str (Service.Name s));
          ("slug", Str (Service.Slug s));
          ("description", Str (Service.Description s));
          ("created_at", Str (Service.CreatedAt s));
          ("updated_at", Str (Service.UpdatedAt s));
          ("versions_count", Number (Service.VersionsCount s))].

Definition of_Version (v : Version.t) : value :=
  Object [("id", Str (Version.ID v));
          ("service_id", Str (Version.ServiceID v));
          ("semver", Str (Version.Semver v));
          ("status", Str (Version.Status v));
          ("changelog", Str (Version.Changelog v));
          ("created_at", Str (Version.CreatedAt v))].

Definition of_Pagination (p : Pagination.t) : value :=
  Object [("page", Number (Pagination.Page p));
          ("page_size", Number (Pagination.PageSize p));
          ("total", Number (Pagination.Total p));
          ("total_pages", Number (Pagination.TotalPages p));
          ("has_next", Bool (Pagination.HasNext p));
          ("has_prev", Bool (Pagination.HasPrev p))].

(** A slice marshals to an array, except the nil slice, which marshals to
    [null]. *)
Definition of_slice {A} (f : A -> value) (s : option (list A)) : value :=
  match s with
  | None => Null
  | Some l => Array (map f l)
  end.

(** [types.PaginatedResponse{Data: data, Pagination: pagination}] *)
Definition of_PaginatedResponse (data : value) (p : Pagination.t) : value :=
  Object [("data", data); ("pagination", of_Pagination p)].

End json.

(** [append(s, x)] *)
Definition append {A} (s : option (list A)) (x : A) : option (list A) :=
  match s with
  | None => Some [x]
  | Some l => Some (l ++ [x])
  end.

(** ** The MySQL store

    The accessors talk to a MySQL server through [database/sql].  The server
    is modelled by the two tables of [migrations/0001_init.sql] and by what
    each of the statements the accessors issue does to them:
    - primary keys, the unique keys on [services.name] and [services.slug]
      and the foreign key [versions.service_id -> services.id] (with
      [ON DELETE CASCADE]) are checked as the schema declares them; the
      foreign key only while the session has [foreign_key_checks] on;
    - strings in keys and [WHERE] clauses compare under the column
      collation, given by a key function [collate];
    - [created_at] defaults to the current time, [updated_at] follows
      [ON UPDATE CURRENT_TIMESTAMP], [versions_count] defaults to 0 and is a
      32-bit [INT] (an out of range value is an error in strict mode);
    - the affected-rows count of an [UPDATE] is the number of rows whose
      value changed, unless the connection asked for [clientFoundRows], in
      which case it is the number of rows the [WHERE] clause matched;
    - the relevance of a row in [MATCH ... AGAINST] is the engine's own and
      is a parameter, [relevance]. *)

Module mysql.

Record Timestamp := mkTime {
  year : Z; month : Z; day : Z; hour : Z; minute : Z; second : Z
}.

Definition time_key (t : Timestamp) : list Z :=
  [year t; month t; day t; hour t; minute t; second t].

Fixpoint lex_ltb (a b : list Z) : bool :=
  match a, b with
  | x :: a', y :: b' => (x <? y) || ((x =? y) && lex_ltb a' b')
  | _, _ => false
  end.

(** [a < b] on timestamps. *)
Definition time_ltb (a b : Timestamp) : bool := lex_ltb (time_key a) (time_key b).

Definition pad2 (n : Z) : string :=
  if n <? 10 then String "0" (strconv.Itoa n) else strconv.Itoa n.

(** What [Scan] into a [*string] stores for a [TIMESTAMP] column read
    with [parseTime=true]: the time in RFC 3339 form. *)
Definition format_time (t : Timestamp) : string :=
  (strconv.Itoa (year t) ++ "-" ++ pad2 (month t) ++ "-" ++ pad2 (day t) ++ "T" ++
   pad2 (hour t) ++ ":" ++ pad2 (minute t) ++ ":" ++ pad2 (second t) ++ "Z")%string.

Module services.
Record row := mk {
  id : string;
  name : string;
  slug : string;
  description : string;
  created_at : Timestamp;
  updated_at : Timestamp;
  versions_count : Z
}.
End services.

Module versions.
Record row := mk {
  id : string;
  service_id : string;
  semver : string;
  status : string;
  changelog : string;
  created_at : Timestamp
}.
End versions.

Record Store := mkStore {
  services_table : list services.row;
  versions_table : list versions.row
}.

(** Session and engine settings. *)
Record Settings := mkSettings {
  collate : string -> string;
  relevance : string -> string -> string -> N;
  clientFoundRows : bool;
  foreign_key_checks : bool
}.

(** The largest value of an [INT] column. *)
Definition INT_MAX : Z := 2147483647.

(** [a = b] under the column collation. *)
Definition coll_eqb (cfg : Settings) (a b : string) : bool :=
  String.eqb (collate cfg a) (collate cfg b).

Definition count {A} (p : A -> bool) (l : list A) : Z :=
  Z.of_nat (List.length (filter p l)).

(** The data-changing statements of [internal/database], with their
    placeholders bound. *)
Inductive Statement :=
| INSERT_INTO_services (id name slug description : string)
| UPDATE_services_SET (name slug description id : string)
| DELETE_FROM_services (id : string)
| INSERT_INTO_versions (id service_id semver status changelog : string)
| UPDATE_services_versions_count (service_id : string).

Section Statements.

Variable cfg : Settings.
Variable now : Timestamp.

(** [WHERE id = ?] *)
Definition id_is (id : string) (r : services.row) : bool :=
  coll_eqb cfg (services.id r) id.

(** [INSERT INTO services (id, name, slug, description) VALUES (?, ?, ?, ?)] *)
Definition insert_service (id name slug description : string) (st : Store)
  : string + (Store * Z) :=
  let rows := services_table st in
  if existsb (id_is id) rows then
    inl "Error 1062 (23000): Duplicate entry for key 'services.PRIMARY'"
  else if existsb (fun r => coll_eqb cfg (services.name r) name) rows then
    inl "Error 1062 (23000): Duplicate entry for key 'services.uq_services_name'"
  else if existsb (fun r => coll_eqb cfg (services.slug r) slug) rows then
    inl "Error 1062 (23000): Duplicate entry for key 'services.uq_services_slug'"
  else
    inr (mkStore (rows ++ [services.mk id name slug description now now 0])
                 (versions_table st), 1).

(** Whether assigning the three values changes the row. *)
Definition changes (name slug description : string) (r : services.row) : bool :=
  negb (String.eqb name (services.name r) &&
        String.eqb slug (services.slug r) &&
        String.eqb description (services.description r)).

(** [UPDATE services SET name = ?, slug = ?, description = ? WHERE id = ?] *)
Definition update_service (name slug description id : string) (st : Store)
  : string + (Store * Z) :=
  let rows := services_table st in
  let taken_name r :=
    negb (String.eqb name (services.name r)) &&
    existsb (fun o => negb (id_is id o) && coll_eqb cfg (services.name o) name) rows in
  let taken_slug r :=
    negb (String.eqb slug (services.slug r)) &&
    existsb (fun o => negb (id_is id o) && coll_eqb cfg (services.slug o) slug) rows in
  if existsb (fun r => id_is id r && taken_name r) rows then
    inl "Error 1062 (23000): Duplicate entry for key 'services.uq_services_name'"
  else if existsb (fun r => id_is id r && taken_slug r) rows then
    inl "Error 1062 (23000): Duplicate entry for key 'services.uq_services_slug'"
  else
    let set r :=
      if id_is id r && changes name slug description r
      then services.mk (services.id r) name slug description
                       (services.created_at r) now (services.versions_count r)
      else r in
    let affected :=
      if clientFoundRows cfg
      then count (id_is id) rows
      else count (fun r => id_is id r && changes name slug description r) rows in
    inr (mkStore (map set rows) (versions_table st), affected).

(** [DELETE FROM services WHERE id = ?], cascading to [versions]. *)
Definition delete_service (id : string) (st : Store) : string + (Store * Z) :=
  let rows := services_table st in
  let affected := count (id_is id) rows in
  let vs :=
    if foreign_key_checks cfg && (0 <? affected)
    then filter (fun v => negb (coll_eqb cfg (versions.service_id v) id))
                (versions_table st)
    else versions_table st in
  inr (mkStore (filter (fun r => negb (id_is id r)) rows) vs, affected).

(** [INSERT INTO versions (id, service_id, semver, status, changelog)
    VALUES (?, ?, ?, ?, ?)] *)
Definition insert_version (id service_id semver status changelog : string)
           (st : Store) : string + (Store * Z) :=
  if existsb (fun v => coll_eqb cfg (versions.id v) id) (versions_table st) then
    inl "Error 1062 (23000): Duplicate entry for key 'versions.PRIMARY'"
  else if foreign_key_checks cfg &&
          negb (existsb (id_is service_id) (services_table st)) then
    inl "Error 1452 (23000): Cannot add or update a child row: a foreign key constraint fails"
  else
    inr (mkStore (services_table st)
                 (versions_table st ++
                  [versions.mk id service_id semver status changelog now]), 1).

(** One more version on a [services] row. *)
Definition bump (r : services.row) : services.row :=
  services.mk (services.id r) (services.name r) (services.slug r)
              (services.description r) (services.created_at r) now
              (services.versions_count r + 1).

(** [UPDATE services SET versions_count = versions_count + 1 WHERE id = ?] *)
Definition update_versions_count (service_id : string) (st : Store)
  : string + (Store * Z) :=
  let rows := services_table st in
  if existsb (fun r => id_is service_id r && (INT_MAX <=? services.versions_count r))
             rows then
    inl "Error 1264 (22003): Out of range value for column 'versions_count'"
  else
    inr (mkStore (map (fun r => if id_is service_id r then bump r else r) rows)
                 (versions_table st),
         count (id_is service_id) rows).

Definition execute (s : Statement) (st : Store) : string + (Store * Z) :=
  match s with
  | INSERT_INTO_services id name slug description =>
      insert_service id name slug description st
  | UPDATE_services_SET name slug description id =>
      update_service name slug description id st
  | DELETE_FROM_services id => delete_service id st
  | INSERT_INTO_versions id service_id semver status changelog =>
      insert_version id service_id semver status changelog st
  | UPDATE_services_versions_count service_id =>
      update_versions_count service_id st
  end.

(** [ORDER BY]: a stable insertion sort; [before a b] says that [a] sorts
    strictly ahead of [b]. *)
Fixpoint place {A} (before : A -> A -> bool) (x : A) (l : list A) : list A :=
  match l with
  | [] => [x]
  | y :: rest => if before y x then y :: place before x rest else x :: l
  end.

Definition order_by {A} (before : A -> A -> bool) (l : list A) : list A :=
  fold_right (place before) [] l.

(** [LIMIT ? OFFSET ?]; a negative argument is refused. *)
Definition limit_offset {A} (limit offset : Z) (l : list A) : string + list A :=
  if (limit <? 0) || (offset <? 0) then
    inl "Error 1210 (HY000): Incorrect arguments to mysqld_stmt_execute"
  else inr (firstn (Z.to_nat limit) (skipn (Z.to_nat offset) l)).

Definition newer_service (a b : services.row) : bool :=
  time_ltb (services.created_at b) (services.created_at a).

Definition newer_version (a b : versions.row) : bool :=
  time_ltb (versions.created_at b) (versions.created_at a).

(** [SELECT COUNT( * ) FROM services] *)
Definition count_services (st : Store) : Z :=
  Z.of_nat (List.length (services_table st)).

(** [SELECT ... FROM services ORDER BY created_at DESC LIMIT ? OFFSET ?] *)
Definition select_services (limit offset : Z) (st : Store)
  : string + list services.row :=
  limit_offset limit offset (order_by newer_service (services_table st)).

(** [MATCH(name, description) AGAINST(? IN NATURAL LANGUAGE MODE)] *)
Definition score (q : string) (r : services.row) : N :=
  relevance cfg q (services.name r) (services.description r).

Definition matches (q : string) (r : services.row) : bool := (0 <? score q r)%N.

Definition ranked_before (q : string) (a b : services.row) : bool :=
  (score q b <? score q a)%N ||
  ((score q b =? score q a)%N && newer_service a b).

(** [SELECT COUNT( * ) FROM services WHERE MATCH ... AGAINST ...] *)
Definition count_search (q : string) (st : Store) : Z :=
  count (matches q) (services_table st).

(** [SELECT ... FROM services WHERE MATCH ... AGAINST ...
    ORDER BY MATCH ... AGAINST ... DESC, created_at DESC LIMIT ? OFFSET ?] *)
Definition select_search (q : string) (limit offset : Z) (st : Store)
  : string + list services.row :=
  limit_offset limit offset
    (order_by (ranked_before q) (filter (matches q) (services_table st))).

(** [SELECT ... FROM services WHERE id = ?]: the first matching row. *)
Definition select_service (id : string) (st : Store) : option services.row :=
  find (id_is id) (services_table st).

Definition of_service (service_id : string) (v : versions.row) : bool :=
  coll_eqb cfg (versions.service_id v) service_id.

(** [SELECT COUNT( * ) FROM versions WHERE service_id = ?] *)
Definition count_versions (service_id : string) (st : Store) : Z :=
  count (of_service service_id) (versions_table st).

(** [SELECT ... FROM versions WHERE service_id = ?
    ORDER BY created_at DESC LIMIT ? OFFSET ?] *)
Definition select_versions (service_id : string) (limit offset : Z) (st : Store)
  : string + list versions.row :=
  limit_offset limit offset
    (order_by newer_version (filter (of_service service_id) (versions_table st))).

End Statements.

End mysql.

(** ** Errors, the world and the [IO] monad *)

(** The [error] values the accessors and handlers see. *)
Inductive error :=
| ErrNoRows
| ErrTxDone
| DriverError (msg : string).

(** [err.Error()] *)
Definition Error (e : error) : string :=
  match e with
  | ErrNoRows => "sql: no rows in result set"
  | ErrTxDone => "sql: transaction has already been committed or rolled back"
  | DriverError msg => msg
  end.

(** Everything outside the handlers that a request can read or change:
    the committed contents of the store, the session settings, the server
    clock, the failures the next driver calls will meet (connection lost,
    server gone; [None] or an exhausted list is a call that gets through),
    the random source of identifiers, and the lines written by [log]. *)
Record World := mkWorld {
  db : mysql.Store;
  settings : mysql.Settings;
  clock : mysql.Timestamp;
  faults : list (option string);
  entropy : nat -> list ascii;
  drawn : nat;
  log_lines : list string
}.

Definition set_db (st : mysql.Store) (w : World) : World :=
  mkWorld st (settings w) (clock w) (faults w) (entropy w) (drawn w) (log_lines w).

Definition set_faults (fs : list (option string)) (w : World) : World :=
  mkWorld (db w) (settings w) (clock w) fs (entropy w) (drawn w) (log_lines w).

Definition set_drawn (n : nat) (w : World) : World :=
  mkWorld (db w) (settings w) (clock w) (faults w) (entropy w) n (log_lines w).

Definition set_log_lines (l : list string) (w : World) : World :=
  mkWorld (db w) (settings w) (clock w) (faults w) (entropy w) (drawn w) l.

Definition IO (A : Type) : Type := World -> A * World.

Definition ret {A} (a : A) : IO A := fun w => (a, w).

Definition bind {A B} (m : IO A) (k : A -> IO B) : IO B :=
  fun w => let (a, w') := m w in k a w'.

Notation "x <- m ;; k" := (bind m (fun x => k))
  (at level 61, m at next level, right associativity).
Notation "' pat <- m ;; k" := (bind m (fun x => match x with pat => k end))
  (at level 61, pat pattern, m at next level, right associativity).

Module log.
(** [log.Printf] *)
Definition Printf (line : string) : IO unit :=
  fun w => (tt, set_log_lines (log_lines w ++ [line]) w).
End log.

(** ** [github.com/google/uuid] *)

Module uuid.

(** A UUID is 16 bytes. *)
Definition UUID := list ascii.

Definition hex_digit (n : N) : ascii :=
  if (n <? 10)%N then ascii_of_N (48 + n) else ascii_of_N (87 + n).

Fixpoint encodeHex (bs : list ascii) : string :=
  match bs with
  | [] => EmptyString
  | b :: rest =>
      let n := N_of_ascii b in
      String (hex_digit (n / 16)) (String (hex_digit (n mod 16)) (encodeHex rest))
  end.

Definition slice (u : UUID) (lo hi : nat) : list ascii :=
  firstn (hi - lo) (skipn lo u).

(** [UUID.String]: the form xxxxxxxx-xxxx-xxxx-xxxx-xxxxxxxxxxxx. *)
Definition String_ (u : UUID) : string :=
  (encodeHex (slice u 0 4) ++ "-" ++ encodeHex (slice u 4 6) ++ "-" ++
   encodeHex (slice u 6 8) ++ "-" ++ encodeHex (slice u 8 10) ++ "-" ++
   encodeHex (slice u 10 16))%string.

(** [uuid.New()]: the next identifier the random source yields. *)
Definition New : IO UUID :=
  fun w => (entropy w (drawn w), set_drawn (S (drawn w)) w).

End uuid.

(** ** [database/sql] over the MySQL driver *)

Module sql.

(** Whether the next driver call gets through. *)
Definition attempt : IO (option string) :=
  fun w =>
    match faults w with
    | [] => (None, w)
    | f :: rest => (f, set_faults rest w)
    end.

(** [DB.Exec]: the statement runs in a transaction of its own. *)
Definition Exec (s : mysql.Statement) : IO (error + Z) :=
  f <- attempt ;;
  match f with
  | Some msg => ret (inl (DriverError msg))
  | None =>
      fun w =>
        match mysql.execute (settings w) (clock w) s (db w) with
        | inl msg => (inl (DriverError msg), w)
        | inr (st, affected) => (inr affected, set_db st w)
        end
  end.

(** [DB.QueryRow(...).Scan(...)] of a query that yields at most the one
    row [q] computes. *)
Definition QueryRow {A} (q : mysql.Settings -> mysql.Store -> option A)
  : IO (error + A) :=
  f <- attempt ;;
  match f with
  | Some msg => ret (inl (DriverError msg))
  | None =>
      fun w =>
        match q (settings w) (db w) with
        | None => (inl ErrNoRows, w)
        | Some row => (inr row, w)
        end
  end.

(** [DB.Query]: the rows of the result set, in order. *)
Definition Query {A} (q : mysql.Settings -> mysql.Store -> string + list A)
  : IO (error + list A) :=
  f <- attempt ;;
  match f with
  | Some msg => ret (inl (DriverError msg))
  | None =>
      fun w =>
        match q (settings w) (db w) with
        | inl msg => (inl (DriverError msg), w)
        | inr rows => (inr rows, w)
        end
  end.

(** An open transaction: the contents it sees and would commit, and
    whether it has already been committed or rolled back. *)
Record Tx := mkTx { work : mysql.Store; done : bool }.

(** [DB.Begin] *)
Definition Begin : IO (error + Tx) :=
  f <- attempt ;;
  match f with
  | Some msg => ret (inl (DriverError msg))
  | None => fun w => (inr (mkTx (db w) false), w)
  end.

(** [tx.Exec]: a statement that fails leaves the transaction as it was. *)
Definition Tx_Exec (tx : Tx) (s : mysql.Statement) : IO ((error + Z) * Tx) :=
  if done tx then ret (inl ErrTxDone, tx)
  else
    f <- attempt ;;
    match f with
    | Some msg => ret (inl (DriverError msg), tx)
    | None =>
        fun w =>
          match mysql.execute (settings w) (clock w) s (work tx) with
          | inl msg => ((inl (DriverError msg), tx), w)
          | inr (st, affected) => ((inr affected, mkTx st false), w)
          end
    end.

(** [tx.Commit]: the work becomes the committed contents, or, when the
    commit fails (the server has not applied it), is dropped; either way the
    transaction is over. *)
Definition Commit (tx : Tx) : IO (option error * Tx) :=
  if done tx then ret (Some ErrTxDone, tx)
  else
    f <- attempt ;;
    match f with
    | Some msg => ret (Some (DriverError msg), mkTx (work tx) true)
    | None => fun w => ((None, mkTx (work tx) true), set_db (work tx) w)
    end.

(** [tx.Rollback]: the work is dropped; on a finished transaction it is
    [ErrTxDone]. *)
Definition Rollback (tx : Tx) : IO (option error * Tx) :=
  if done tx then ret (Some ErrTxDone, tx)
  else
    f <- attempt ;;
    match f with
    | Some msg => ret (Some (DriverError msg), mkTx (work tx) true)
    | None => ret (None, mkTx (work tx) true)
    end.

End sql.

(** ** [internal/database]

    The deferred [rows.Close] is taken to succeed (the source only logs its
    error), and the row loops end when the rows do: the source does not
    consult [rows.Err]. *)

Module database.

(** [rows.Scan] into a [models.Service]. *)
Definition scan_service (r : mysql.services.row) : Service.t :=
  Service.mk (mysql.services.id r) (mysql.services.name r) (mysql.services.slug r)
             (mysql.services.description r)
             (mysql.format_time (mysql.services.created_at r))
             (mysql.format_time (mysql.services.updated_at r))
             (mysql.services.versions_count r).

(** [rows.Scan] into a [models.Version]. *)
Definition scan_version (r : mysql.versions.row) : Version.t :=
  Version.mk (mysql.versions.id r) (mysql.versions.service_id r)
             (mysql.versions.semver r) (mysql.versions.status r)
             (mysql.versions.changelog r)
             (mysql.format_time (mysql.versions.created_at r)).

(** The loop [for rows.Next() { ...; xs = append(xs, x) }] over a slice
    declared with [var xs []T]. *)
Definition collect {R T} (scan : R -> T) (rows : list R) : option (list T) :=
  fold_left (fun xs r => append xs (scan r)) rows None.

(** [GetServices] *)
Definition GetServices (params : PaginationParams.t)
  : IO (option (list Service.t) * Z * option error) :=
  let offset := GoInt.mul (GoInt.sub (PaginationParams.Page params) 1)
                          (PaginationParams.PageSize params) in
  r <- sql.QueryRow (fun _ st => Some (mysql.count_services st)) ;;
  match r with
  | inl err => ret (None, 0, Some err)
  | inr total =>
      rows <- sql.Query (fun _ =>
                mysql.select_services (PaginationParams.PageSize params) offset) ;;
      match rows with
      | inl err => ret (None, 0, Some err)
      | inr rows => ret (collect scan_service rows, total, None)
      end
  end.

(** [SearchServices] *)
Definition SearchServices (params : SearchParams.t)
  : IO (option (list Service.t) * Z * option error) :=
  let offset := GoInt.mul (GoInt.sub (SearchParams.Page params) 1)
                          (SearchParams.PageSize params) in
  r <- sql.QueryRow (fun cfg st =>
         Some (mysql.count_search cfg (SearchParams.Query params) st)) ;;
  match r with
  | inl err => ret (None, 0, Some err)
  | inr total =>
      rows <- sql.Query (fun cfg =>
                mysql.select_search cfg (SearchParams.Query params)
                                    (SearchParams.PageSize params) offset) ;;
      match rows with
      | inl err => ret (None, 0, Some err)
      | inr rows => ret (collect scan_service rows, total, None)
      end
  end.

(** [CreateService] *)
Definition CreateService (service : Service.t) : IO (option error) :=
  r <- sql.Exec (mysql.INSERT_INTO_services
                   (Service.ID service) (Service.Name service)
                   (Service.Slug service) (Service.Description service)) ;;
  match r with
  | inl err => ret (Some err)
  | inr _ => ret None
  end.

(** [GetServiceByID] *)
Definition GetServiceByID (id : string) : IO (option Service.t * option error) :=
  r <- sql.QueryRow (fun cfg st => mysql.select_service cfg id st) ;;
  match r with
  | inl err => ret (None, Some err)
  | inr row => ret (Some (scan_service row), None)
  end.

(** [UpdateService] *)
Definition UpdateService (id : string) (service : Service.t)
  : IO (Z * option error) :=
  r <- sql.Exec (mysql.UPDATE_services_SET
                   (Service.Name service) (Service.Slug service)
                   (Service.Description service) id) ;;
  match r with
  | inl err => ret (0, Some err)
  | inr rowsAffected => ret (rowsAffected, None)
  end.

(** [DeleteService] *)
Definition DeleteService (id : string) : IO (Z * option error) :=
  r <- sql.Exec (mysql.DELETE_FROM_services id) ;;
  match r with
  | inl err => ret (0, Some err)
  | inr rowsAffected => ret (rowsAffected, None)
  end.

(** [GetVersions] *)
Definition GetVersions (serviceID : string) (params : PaginationParams.t)
  : IO (option (list Version.t) * Z * option error) :=
  let offset := GoInt.mul (GoInt.sub (PaginationParams.Page params) 1)
                          (PaginationParams.PageSize params) in
  r <- sql.QueryRow (fun cfg st => Some (mysql.count_versions cfg serviceID st)) ;;
  match r with
  | inl err => ret (None, 0, Some err)
  | inr total =>
      rows <- sql.Query (fun cfg =>
                mysql.select_versions cfg serviceID
                                      (PaginationParams.PageSize params) offset) ;;
      match rows with
      | inl err => ret (None, 0, Some err)
      | inr rows => ret (collect scan_version rows, total, None)
      end
  end.

(** The statements of [CreateVersion] between [Begin] and the deferred
    [Rollback]: insert the version, bump the counter, commit. *)
Definition CreateVersion_body (tx : sql.Tx) (version : Version.t)
  : IO (option error * sql.Tx) :=
  '(r, tx) <- sql.Tx_Exec tx (mysql.INSERT_INTO_versions
                (Version.ID version) (Version.ServiceID version)
                (Version.Semver version) (Version.Status version)
                (Version.Changelog version)) ;;
  match r with
  | inl err => ret (Some err, tx)
  | inr _ =>
      '(r, tx) <- sql.Tx_Exec tx (mysql.UPDATE_services_versions_count
                    (Version.ServiceID version)) ;;
      match r with
      | inl err => ret (Some err, tx)
      | inr _ => sql.Commit tx
      end
  end.

(** [CreateVersion]: the body runs inside a transaction, and the deferred
    function rolls the transaction back on the way out, logging (only) a
    rollback that reports an error. *)
Definition CreateVersion (version : Version.t) : IO (option error) :=
  r <- sql.Begin ;;
  match r with
  | inl err => ret (Some err)
  | inr tx =>
      '(err, tx) <- CreateVersion_body tx version ;;
      '(rerr, _) <- sql.Rollback tx ;;
      _ <- match rerr with
           | Some e => log.Printf ("Error rolling back transaction: " ++ Error e)%string
           | None => ret tt
           end ;;
      ret err
  end.

End database.

(** ** [net/http] status codes *)

Module http.
Definition StatusOK : Z := 200.
Definition StatusCreated : Z := 201.
Definition StatusBadRequest : Z := 400.
Definition StatusNotFound : Z := 404.
Definition StatusInternalServerError : Z := 500.
End http.

(** ** [internal/handlers] *)

(** How a handler ends: it has written a JSON response with [c.JSON], or
    the goroutine has panicked. *)
Inductive Outcome :=
| JSON (code : Z) (obj : json.value)
| Panic (msg : string).

Definition status_of (o : Outcome) : option Z :=
  match o with
  | JSON code _ => Some code
  | Panic _ => None
  end.

Definition body_of (o : Outcome) : option json.value :=
  match o with
  | JSON _ obj => Some obj
  | Panic _ => None
  end.

Module handlers.

Definition divide_by_zero : Outcome := Panic "runtime error: integer divide by zero".

(** The two [if] statements under "Validate pagination parameters", which
    [GetServices], [SearchServices] and [GetVersions] each spell out in the
    same words; [None] lets the request through. *)
Definition validate (page pageSize : Z) : option Outcome :=
  if page <? 1 then
    Some (JSON http.StatusBadRequest (json.H "error" "page must be greater than 0"))
  else if (pageSize <? 1) || (100 <? pageSize) then
    Some (JSON http.StatusBadRequest
               (json.H "error" "page_size must be between 1 and 100"))
  else None.

(** What the three list handlers do, again in the same words, with what
    the accessor returned: the error check, the pagination metadata and
    the envelope. *)
Definition paginated (page pageSize : Z) (data : json.value) (total : Z)
           (err : option error) : Outcome :=
  match err with
  | Some e => JSON http.StatusInternalServerError (json.H "error" (Error e))
  | None =>
      match utils.CalculatePagination page pageSize total with
      | None => divide_by_zero
      | Some pagination =>
          JSON http.StatusOK (json.of_PaginatedResponse data pagination)
      end
  end.

(** [GetServices] *)
Definition GetServices {B} (c : gin.Context B) : IO Outcome :=
  let params := utils.GetPaginationParams c in
  match validate (PaginationParams.Page params) (PaginationParams.PageSize params) with
  | Some rejection => ret rejection
  | None =>
      '(services, total, err) <- database.GetServices params ;;
      ret (paginated (PaginationParams.Page params) (PaginationParams.PageSize params)
                     (json.of_slice json.of_Service services) total err)
  end.

(** [SearchServices] *)
Definition SearchServices {B} (c : gin.Context B) : IO Outcome :=
  let params := utils.GetSearchParams c in
  if String.eqb (SearchParams.Query params) "" then
    ret (JSON http.StatusBadRequest (json.H "error" "search query 'q' is required"))
  else
    match validate (SearchParams.Page params) (SearchParams.PageSize params) with
    | Some rejection => ret rejection
    | None =>
        '(services, total, err) <- database.SearchServices params ;;
        ret (paginated (SearchParams.Page params) (SearchParams.PageSize params)
                       (json.of_slice json.of_Service services) total err)
    end.

Definition with_ID (service : Service.t) (id : string) : Service.t :=
  Service.mk id (Service.Name service) (Service.Slug service)
             (Service.Description service) (Service.CreatedAt service)
             (Service.UpdatedAt service) (Service.VersionsCount service).

(** [CreateService] *)
Definition CreateService (c : gin.Context Service.t) : IO Outcome :=
  match gin.ShouldBindJSON c with
  | inl err => ret (JSON http.StatusBadRequest (json.H "error" err))
  | inr service =>
      u <- uuid.New ;;
      let service := with_ID service (uuid.String_ u) in
      err <- database.CreateService service ;;
      match err with
      | Some e => ret (JSON http.StatusInternalServerError (json.H "error" (Error e)))
      | None => ret (JSON http.StatusCreated (json.of_Service service))
      end
  end.

(** [GetService] *)
Definition GetService {B} (c : gin.Context B) : IO Outcome :=
  let id := gin.Param c in
  '(service, err) <- database.GetServiceByID id ;;
  match err, service with
  | Some ErrNoRows, _ =>
      ret (JSON http.StatusNotFound (json.H "error" "Service not found"))
  | Some e, _ =>
      ret (JSON http.StatusInternalServerError (json.H "error" (Error e)))
  | None, Some service => ret (JSON http.StatusOK (json.of_Service service))
  | None, None => ret (JSON http.StatusOK json.Null)
  end.

(** [UpdateService] *)
Definition UpdateService (c : gin.Context Service.t) : IO Outcome :=
  let id := gin.Param c in
  match gin.ShouldBindJSON c with
  | inl err => ret (JSON http.StatusBadRequest (json.H "error" err))
  | inr service =>
      '(rowsAffected, err) <- database.UpdateService id service ;;
      match err with
      | Some e => ret (JSON http.StatusInternalServerError (json.H "error" (Error e)))
      | None =>
          if rowsAffected =? 0 then
            ret (JSON http.StatusNotFound (json.H "error" "Service not found"))
          else
            ret (JSON http.StatusOK (json.of_Service (with_ID service id)))
      end
  end.

(** [DeleteService] *)
Definition DeleteService {B} (c : gin.Context B) : IO Outcome :=
  let id := gin.Param c in
  '(rowsAffected, err) <- database.DeleteService id ;;
  match err with
  | Some e => ret (JSON http.StatusInternalServerError (json.H "error" (Error e)))
  | None =>
      if rowsAffected =? 0 then
        ret (JSON http.StatusNotFound (json.H "error" "Service not found"))
      else
        ret (JSON http.StatusOK (json.H "message" "Service deleted"))
  end.

(** [GetVersions] *)
Definition GetVersions {B} (c : gin.Context B) : IO Outcome :=
  let serviceID := gin.Param c in
  let params := utils.GetPaginationParams c in
  match validate (PaginationParams.Page params) (PaginationParams.PageSize params) with
  | Some rejection => ret rejection
  | None =>
      '(versions, total, err) <- database.GetVersions serviceID params ;;
      ret (paginated (PaginationParams.Page params) (PaginationParams.PageSize params)
                     (json.of_slice json.of_Version versions) total err)
  end.

Definition with_IDs (version : Version.t) (id serviceID : string) : Version.t :=
  Version.mk id serviceID (Version.Semver version) (Version.Status version)
             (Version.Changelog version) (Version.CreatedAt version).

(** [CreateVersion] *)
Definition CreateVersion (c : gin.Context Version.t) : IO Outcome :=
  let serviceID := gin.Param c in
  match gin.ShouldBindJSON c with
  | inl err => ret (JSON http.StatusBadRequest (json.H "error" err))
  | inr version =>
      u <- uuid.New ;;
      let version := with_IDs version (uuid.String_ u) serviceID in
      err <- database.CreateVersion version ;;
      match err with
      | Some e => ret (JSON http.StatusInternalServerError (json.H "error" (Error e)))
      | None => ret (JSON http.StatusCreated (json.of_Version version))
      end
  end.

End handlers.

(** ** Specification-side definitions *)

(** [k] is the ceiling of [total / pageSize]: the least number of pages of
    [pageSize] items that hold [total] items. *)
Definition is_ceiling (total pageSize k : Z) : Prop :=
  (k - 1) * pageSize < total <= k * pageSize.

(** What the extraction stage yields for one field, in the spec's words:
    the default when the parameter is absent, empty, not a number (it does
    not parse), zero or negative; the number itself when the parameter
    parses to a positive integer. *)
Inductive Extracted (default : Z) : option string -> Z -> Prop :=
| Extracted_absent : Extracted default None default
| Extracted_empty : Extracted default (Some "") default
| Extracted_unparsable s :
    strconv.Atoi s = None -> Extracted default (Some s) default
| Extracted_non_positive s n :
    strconv.Atoi s = Some n -> n <= 0 -> Extracted default (Some s) default
| Extracted_positive s n :
    strconv.Atoi s = Some n -> 0 < n -> Extracted default (Some s) n.

(** The two rejections of the range check. *)
Definition page_rejected : Outcome :=
  JSON http.StatusBadRequest (json.H "error" "page must be greater than 0").

Definition page_size_rejected : Outcome :=
  JSON http.StatusBadRequest (json.H "error" "page_size must be between 1 and 100").

(** A list handler's outcome is sound for the parameters [page] and
    [pageSize] when it is not a panic, it is not the rejection of the page,
    it rejects the page size only above 100, and a 200 carries the metadata
    [CalculatePagination] computed from parameters in range. *)
Definition sound_outcome (page pageSize : Z) (o : Outcome) : Prop :=
  (forall msg, o <> Panic msg) /\
  o <> page_rejected /\
  (o = page_size_rejected -> 100 < pageSize) /\
  (forall obj, o = JSON http.StatusOK obj ->
     1 <= page /\ 1 <= pageSize <= 100 /\
     exists data total pagination,
       utils.CalculatePagination page pageSize total = Some pagination /\
       obj = json.of_PaginatedResponse data pagination).

(** ** A concrete world: the seed of the integration tests *)

(** Whether [needle] occurs in [hay]. *)
Fixpoint contains (needle hay : string) : bool :=
  String.prefix needle hay ||
  match hay with
  | EmptyString => false
  | String _ rest => contains needle rest
  end.

(** Settings of the default connection string (no [clientFoundRows]), a
    binary collation, and a relevance that scores a row 1 when the query
    occurs in its name or description. *)
Definition sample_settings : mysql.Settings :=
  mysql.mkSettings
    (fun s => s)
    (fun q name description =>
       if contains q name || contains q description then 1%N else 0%N)
    false true.

Definition seed_time : mysql.Timestamp := mysql.mkTime 2024 1 15 10 30 0.

Definition seeded : mysql.Store :=
  mysql.mkStore
    [mysql.services.mk "service-1" "Test Service 1" "test-service-1"
                       "First test service" seed_time seed_time 2;
     mysql.services.mk "service-2" "Test Service 2" "test-service-2"
                       "Second test service" seed_time seed_time 1;
     mysql.services.mk "service-3" "Notification Service" "notification-service"
                       "Service for sending notifications" seed_time seed_time 1]
    [mysql.versions.mk "version-1" "service-1" "1.0.0" "released"
                       "Initial release" seed_time;
     mysql.versions.mk "version-2" "service-1" "1.1.0" "released"
                       "Minor update" seed_time;
     mysql.versions.mk "version-3" "service-2" "0.1.0" "draft"
                       "Work in progress" seed_time;
     mysql.versions.mk "version-4" "service-3" "2.0.0" "released"
                       "Major update" seed_time].

(** The seeded store behind a connection that does not fail. *)
Definition seeded_world : World :=
  mkWorld seeded sample_settings (mysql.mkTime 2024 1 15 10 31 7) []
          (fun n => map ascii_of_nat (seq (17 * n) 16)) 0 [].

(** The same, in a session with [foreign_key_checks] off. *)
Definition unchecked_world : World :=
  mkWorld seeded
          (mysql.mkSettings (mysql.collate sample_settings)
                            (mysql.relevance sample_settings) false false)
          (mysql.mkTime 2024 1 15 10 31 7) []
          (fun n => map ascii_of_nat (seq (17 * n) 16)) 0 [].

(** A [GET] request with the given query string and path parameter. *)
Definition GET (query : list (string * string)) (id : string) : gin.Context unit :=
  gin.mkContext query id (inl "EOF").


(** What a full replacement by [body] leaves of the row [r] as [r']: the
    three fields are the body's, and the id, the creation time and the
    version counter are the row's own. *)
Definition replaced_by (body : Service.t) (r r' : mysql.services.row) : Prop :=
  mysql.services.name r' = Service.Name body /\
  mysql.services.slug r' = Service.Slug body /\
  mysql.services.description r' = Service.Description body /\
  mysql.services.id r' = mysql.services.id r /\
  mysql.services.created_at r' = mysql.services.created_at r /\
  mysql.services.versions_count r' = mysql.services.versions_count r.

(** The answer of the handlers to an id no row has. *)
Definition not_found : Outcome :=
  JSON http.StatusNotFound (json.H "error" "Service not found").

(** ** [os]: the process environment *)

Module os.

(** The environment block: [KEY=value] pairs; the first mention of a key
    is the one that counts. *)
Definition Environ := list (string * string).

Fixpoint LookupEnv (env : Environ) (key : string) : option string :=
  match env with
  | [] => None
  | (k, v) :: rest => if String.eqb k key then Some v else LookupEnv rest key
  end.

(** [os.Getenv]: the value of [key], or the empty string when it is not
    set. *)
Definition Getenv (env : Environ) (key : string) : string :=
  match LookupEnv env key with
  | Some v => v
  | None => ""
  end.

End os.

(** ** [internal/config] *)

Module config.

Record DatabaseConfig := mkDatabaseConfig { DSN : string }.

Record Config := mkConfig {
  Port : string;
  LogLevel : string;
  Database : DatabaseConfig
}.

(** [getEnv] *)
Definition getEnv (env : os.Environ) (key defaultValue : string) : string :=
  let value := os.Getenv env key in
  if negb (String.eqb value "") then value else defaultValue.

(** [Load] *)
Definition Load (env : os.Environ) : Config :=
  mkConfig
    (getEnv env "PORT" "8080")
    (getEnv env "LOG_LEVEL" "debug")
    (mkDatabaseConfig
       (getEnv env "MYSQL_DSN" "app:app@tcp(127.0.0.1:3306)/servicesdb?parseTime=true&charset=utf8mb4&collation=utf8mb4_0900_ai_ci")).

End config.

(** ** [internal/database/connection.go] *)

Module connection.

(** [getDatabaseDSN] *)
Definition getDatabaseDSN (env : os.Environ) : string :=
  let dsn := os.Getenv env "MYSQL_DSN" in
  if String.eqb dsn ""
  then "app:app@tcp(127.0.0.1:3306)/servicesdb?parseTime=true&charset=utf8mb4&collation=utf8mb4_0900_ai_ci"
  else dsn.

End connection.

(** ** [internal/handlers/health.go] *)

Module health.

(** [HealthCheck] *)
Definition HealthCheck {B} (c : gin.Context B) : IO Outcome :=
  ret (JSON http.StatusOK (json.H "status" "ok")).

End health.

(** ** [cmd/api/main.go]

    The single-file server: it declares the structs of [internal/models]
    and [pkg/types] again, field for field, and its handlers issue the
    statements themselves, on the package-level [db].  The handlers drop
    the error of [result.RowsAffected], which the MySQL driver never
    returns. *)

Module main.

(** [healthCheck] *)
Definition healthCheck {B} (c : gin.Context B) : IO Outcome :=
  ret (JSON http.StatusOK (json.H "status" "ok")).

(** [getPaginationParams] *)
Definition getPaginationParams {B} (c : gin.Context B) : PaginationParams.t :=
  let params := PaginationParams.mk 1 10 in
  let params :=
    let pageStr := gin.Query c "page" in
    if negb (String.eqb pageStr "") then
      match strconv.Atoi pageStr with
      | Some page =>
          if 0 <? page
          then PaginationParams.mk page (PaginationParams.PageSize params)
          else params
      | None => params
      end
    else params in
  let params :=
    let pageSizeStr := gin.Query c "page_size" in
    if negb (String.eqb pageSizeStr "") then
      match strconv.Atoi pageSizeStr with
      | Some pageSize =>
          if 0 <? pageSize
          then PaginationParams.mk (PaginationParams.Page params) pageSize
          else params
      | None => params
      end
    else params in
  params.

(** [getSearchParams] *)
Definition getSearchParams {B} (c : gin.Context B) : SearchParams.t :=
  let params := SearchParams.mk (gin.Query c "q") 1 10 in
  let params :=
    let pageStr := gin.Query c "page" in
    if negb (String.eqb pageStr "") then
      match strconv.Atoi pageStr with
      | Some page =>
          if 0 <? page
          then SearchParams.mk (SearchParams.Query params) page
                               (SearchParams.PageSize params)
          else params
      | None => params
      end
    else params in
  let params :=
    let pageSizeStr := gin.Query c "page_size" in
    if negb (String.eqb pageSizeStr "") then
      match strconv.Atoi pageSizeStr with
      | Some pageSize =>
          if 0 <? pageSize
          then SearchParams.mk (SearchParams.Query params)
                               (SearchParams.Page params) pageSize
          else params
      | None => params
      end
    else params in
  params.

(** [calculatePagination]; [None] is the panic of an integer division by
    zero. *)
Definition calculatePagination (page pageSize total : Z) : option Pagination.t :=
  match GoInt.quo (GoInt.sub (GoInt.add total pageSize) 1) pageSize with
  | None => None
  | Some totalPages =>
      Some (Pagination.mk page pageSize total totalPages
                          (page <? totalPages) (1 <? page))
  end.

(** The answer each handler writes when a call on [db] has failed. *)
Definition internal_error (err : error) : Outcome :=
  JSON http.StatusInternalServerError (json.H "error" (Error err)).

(** [PaginatedResponse{Data: data, Pagination: pagination}], written with
    status 200. *)
Definition respond (data : json.value) (page pageSize total : Z) : Outcome :=
  match calculatePagination page pageSize total with
  | None => Panic "runtime error: integer divide by zero"
  | Some pagination => JSON http.StatusOK (json.of_PaginatedResponse data pagination)
  end.

(** [getServices] *)
Definition getServices {B} (c : gin.Context B) : IO Outcome :=
  let params := getPaginationParams c in
  if PaginationParams.Page params <? 1 then
    ret (JSON http.StatusBadRequest (json.H "error" "page must be greater than 0"))
  else if (PaginationParams.PageSize params <? 1) ||
          (100 <? PaginationParams.PageSize params) then
    ret (JSON http.StatusBadRequest
              (json.H "error" "page_size must be between 1 and 100"))
  else
    let offset := GoInt.mul (GoInt.sub (PaginationParams.Page params) 1)
                            (PaginationParams.PageSize params) in
    r <- sql.QueryRow (fun _ st => Some (mysql.count_services st)) ;;
    match r with
    | inl err => ret (internal_error err)
    | inr total =>
        rows <- sql.Query (fun _ =>
                  mysql.select_services (PaginationParams.PageSize params) offset) ;;
        match rows with
        | inl err => ret (internal_error err)
        | inr rows =>
            let services := database.collect database.scan_service rows in
            ret (respond (json.of_slice json.of_Service services)
                         (PaginationParams.Page params)
                         (PaginationParams.PageSize params) total)
        end
    end.

(** [searchServices] *)
Definition searchServices {B} (c : gin.Context B) : IO Outcome :=
  let params := getSearchParams c in
  if String.eqb (SearchParams.Query params) "" then
    ret (JSON http.StatusBadRequest (json.H "error" "search query 'q' is required"))
  else if SearchParams.Page params <? 1 then
    ret (JSON http.StatusBadRequest (json.H "error" "page must be greater than 0"))
  else if (SearchParams.PageSize params <? 1) ||
          (100 <? SearchParams.PageSize params) then
    ret (JSON http.StatusBadRequest
              (json.H "error" "page_size must be between 1 and 100"))
  else
    let offset := GoInt.mul (GoInt.sub (SearchParams.Page params) 1)
                            (SearchParams.PageSize params) in
    r <- sql.QueryRow (fun cfg st =>
           Some (mysql.count_search cfg (SearchParams.Query params) st)) ;;
    match r with
    | inl err => ret (internal_error err)
    | inr total =>
        rows <- sql.Query (fun cfg =>
                  mysql.select_search cfg (SearchParams.Query params)
                                      (SearchParams.PageSize params) offset) ;;
        match rows with
        | inl err => ret (internal_error err)
        | inr rows =>
            let services := database.collect database.scan_service rows in
            ret (respond (json.of_slice json.of_Service services)
                         (SearchParams.Page params)
                         (SearchParams.PageSize params) total)
        end
    end.

(** [createService] *)
Definition createService (c : gin.Context Service.t) : IO Outcome :=
  match gin.ShouldBindJSON c with
  | inl err => ret (JSON http.StatusBadRequest (json.H "error" err))
  | inr service =>
      u <- uuid.New ;;
      let service := handlers.with_ID service (uuid.String_ u) in
      r <- sql.Exec (mysql.INSERT_INTO_services
                       (Service.ID service) (Service.Name service)
                       (Service.Slug service) (Service.Description service)) ;;
      match r with
      | inl err => ret (internal_error err)
      | inr _ => ret (JSON http.StatusCreated (json.of_Service service))
      end
  end.

(** [getService] *)
Definition getService {B} (c : gin.Context B) : IO Outcome :=
  let id := gin.Param c in
  r <- sql.QueryRow (fun cfg st => mysql.select_service cfg id st) ;;
  match r with
  | inl ErrNoRows =>
      ret (JSON http.StatusNotFound (json.H "error" "Service not found"))
  | inl err => ret (internal_error err)
  | inr row => ret (JSON http.StatusOK (json.of_Service (database.scan_service row)))
  end.

(** [updateService] *)
Definition updateService (c : gin.Context Service.t) : IO Outcome :=
  let id := gin.Param c in
  match gin.ShouldBindJSON c with
  | inl err => ret (JSON http.StatusBadRequest (json.H "error" err))
  | inr service =>
      r <- sql.Exec (mysql.UPDATE_services_SET
                       (Service.Name service) (Service.Slug service)
                       (Service.Description service) id) ;;
      match r with
      | inl err => ret (internal_error err)
      | inr rowsAffected =>
          if rowsAffected =? 0 then
            ret (JSON http.StatusNotFound (json.H "error" "Service not found"))
          else
            ret (JSON http.StatusOK (json.of_Service (handlers.with_ID service id)))
      end
  end.

(** [deleteService] *)
Definition deleteService {B} (c : gin.Context B) : IO Outcome :=
  let id := gin.Param c in
  r <- sql.Exec (mysql.DELETE_FROM_services id) ;;
  match r with
  | inl err => ret (internal_error err)
  | inr rowsAffected =>
      if rowsAffected =? 0 then
        ret (JSON http.StatusNotFound (json.H "error" "Service not found"))
      else
        ret (JSON http.StatusOK (json.H "message" "Service deleted"))
  end.

(** [getVersions] *)
Definition getVersions {B} (c : gin.Context B) : IO Outcome :=
  let serviceID := gin.Param c in
  let params := getPaginationParams c in
  if PaginationParams.Page params <? 1 then
    ret (JSON http.StatusBadRequest (json.H "error" "page must be greater than 0"))
  else if (PaginationParams.PageSize params <? 1) ||
          (100 <? PaginationParams.PageSize params) then
    ret (JSON http.StatusBadRequest
              (json.H "error" "page_size must be between 1 and 100"))
  else
    let offset := GoInt.mul (GoInt.sub (PaginationParams.Page params) 1)
                            (PaginationParams.PageSize params) in
    r <- sql.QueryRow (fun cfg st => Some (mysql.count_versions cfg serviceID st)) ;;
    match r with
    | inl err => ret (internal_error err)
    | inr total =>
        rows <- sql.Query (fun cfg =>
                  mysql.select_versions cfg serviceID
                                        (PaginationParams.PageSize params) offset) ;;
        match rows with
        | inl err => ret (internal_error err)
        | inr rows =>
            let versions := database.collect database.scan_version rows in
            ret (respond (json.of_slice json.of_Version versions)
                         (PaginationParams.Page params)
                         (PaginationParams.PageSize params) total)
        end
    end.

(** The statements of [createVersion] between [db.Begin] and the deferred
    [tx.Rollback]; each failure writes its own 500. *)
Definition createVersion_body (tx : sql.Tx) (version : Version.t)
  : IO (Outcome * sql.Tx) :=
  '(r, tx) <- sql.Tx_Exec tx (mysql.INSERT_INTO_versions
                (Version.ID version) (Version.ServiceID version)
                (Version.Semver version) (Version.Status version)
                (Version.Changelog version)) ;;
  match r with
  | inl err => ret (internal_error err, tx)
  | inr _ =>
      '(r, tx) <- sql.Tx_Exec tx (mysql.UPDATE_services_versions_count
                    (Version.ServiceID version)) ;;
      match r with
      | inl err => ret (internal_error err, tx)
      | inr _ =>
          '(err, tx) <- sql.Commit tx ;;
          match err with
          | Some e => ret (internal_error e, tx)
          | None => ret (JSON http.StatusCreated (json.of_Version version), tx)
          end
      end
  end.

(** [createVersion] *)
Definition createVersion (c : gin.Context Version.t) : IO Outcome :=
  let serviceID := gin.Param c in
  match gin.ShouldBindJSON c with
  | inl err => ret (JSON http.StatusBadRequest (json.H "error" err))
  | inr version =>
      u <- uuid.New ;;
      let version := handlers.with_IDs version (uuid.String_ u) serviceID in
      r <- sql.Begin ;;
      match r with
      | inl err => ret (internal_error err)
      | inr tx =>
          '(outcome, tx) <- createVersion_body tx version ;;
          '(rerr, _) <- sql.Rollback tx ;;
          _ <- match rerr with
               | Some e => log.Printf ("Error rolling back transaction: " ++ Error e)%string
               | None => ret tt
               end ;;
          ret outcome
      end
  end.

End main.

(** ** The seed ([migrations], and [seedTestData] of the integration tests) *)

Module seed.

Section Recount.

Variable cfg : mysql.Settings.
Variable now : mysql.Timestamp.

(** [(SELECT COUNT( * ) FROM versions WHERE service_id = services.id)] *)
Definition versions_of (st : mysql.Store) (r : mysql.services.row) : Z :=
  mysql.count (mysql.of_service cfg (mysql.services.id r)) (mysql.versions_table st).

(** [UPDATE services SET versions_count = (SELECT COUNT( * ) FROM versions
    WHERE service_id = services.id)] *)
Definition recount (st : mysql.Store) : string + (mysql.Store * Z) :=
  let rows := mysql.services_table st in
  if existsb (fun r => mysql.INT_MAX <? versions_of st r) rows then
    inl "Error 1264 (22003): Out of range value for column 'versions_count'"
  else
    let stale r := negb (mysql.services.versions_count r =? versions_of st r) in
    let set r :=
      if stale r
      then mysql.services.mk (mysql.services.id r) (mysql.services.name r)
                             (mysql.services.slug r) (mysql.services.description r)
                             (mysql.services.created_at r) now (versions_of st r)
      else r in
    let affected :=
      if mysql.clientFoundRows cfg
      then Z.of_nat (List.length rows)
      else mysql.count stale rows in
    inr (mysql.mkStore (map set rows) (mysql.versions_table st), affected).

End Recount.

End seed.

(** ** Consistency of the store *)

(** The row counts as many versions as the [versions] table holds for its
    id. *)
Definition counted (cfg : mysql.Settings) (st : mysql.Store)
           (r : mysql.services.row) : bool :=
  mysql.services.versions_count r
    =? mysql.count (mysql.of_service cfg (mysql.services.id r)) (mysql.versions_table st).

(** Every service counts its versions right. *)
Definition counts_consistent (cfg : mysql.Settings) (st : mysql.Store) : bool :=
  forallb (counted cfg st) (mysql.services_table st).

(** Every version belongs to a service the store has. *)
Definition referenced (cfg : mysql.Settings) (st : mysql.Store) : bool :=
  forallb (fun v => existsb (mysql.id_is cfg (mysql.versions.service_id v))
                            (mysql.services_table st))
          (mysql.versions_table st).

Definition consistent (cfg : mysql.Settings) (st : mysql.Store) : bool :=
  counts_consistent cfg st && referenced cfg st.

(** The elements of a slice; the nil slice has none. *)
Definition items {A} (s : option (list A)) : list A :=
  match s with
  | Some l => l
  | None => []
  end.


(** What a request that only reads leaves behind: the store, the session,
    the log and the identifier source are as they were (pending driver
    failures may have been met). *)
Definition only_read (w w' : World) : Prop :=
  db w' = db w /\ settings w' = settings w /\ clock w' = clock w /\
  log_lines w' = log_lines w /\ drawn w' = drawn w /\ entropy w' = entropy w.

(** ** The routes ([setupRouter], [setupAPIRoutes])

    One constructor per route that a handler of the application serves
    (the Swagger route is served by the library's own handler), carrying
    the request context the handler is called with. *)

Module router.

Inductive Request :=
| GET_health (c : gin.Context unit)
| GET_services (c : gin.Context unit)
| GET_services_search (c : gin.Context unit)
| POST_services (c : gin.Context Service.t)
| GET_services_id (c : gin.Context unit)
| PUT_services_id (c : gin.Context Service.t)
| DELETE_services_id (c : gin.Context unit)
| GET_services_id_versions (c : gin.Context unit)
| POST_services_id_versions (c : gin.Context Version.t).

Definition serve (r : Request) : IO Outcome :=
  match r with
  | GET_health c => health.HealthCheck c
  | GET_services c => handlers.GetServices c
  | GET_services_search c => handlers.SearchServices c
  | POST_services c => handlers.CreateService c
  | GET_services_id c => handlers.GetService c
  | PUT_services_id c => handlers.UpdateService c
  | DELETE_services_id c => handlers.DeleteService c
  | GET_services_id_versions c => handlers.GetVersions c
  | POST_services_id_versions c => handlers.CreateVersion c
  end.

(** The world after the requests have been served, one after the other. *)
Fixpoint serve_all (rs : list Request) (w : World) : World :=
  match rs with
  | [] => w
  | r :: rest => serve_all rest (snd (serve r w))
  end.

End router.

(** The store [seedTestData] has filled before it counts the versions. *)
Definition inserted : mysql.Store :=
  mysql.mkStore
    (map (fun r => mysql.services.mk (mysql.services.id r) (mysql.services.name r)
                     (mysql.services.slug r) (mysql.services.description r)
                     (mysql.services.created_at r) (mysql.services.updated_at r) 0)
         (mysql.services_table seeded))
    (mysql.versions_table seeded).

(** ** Listings and their pages *)

(** The rows [offset, offset + limit) of a listing. *)
Definition window {T} (limit offset : Z) (l : list T) : list T :=
  firstn (Z.to_nat limit) (skipn (Z.to_nat offset) l).




(** The elements a list accessor has returned. *)
Definition data_of {T} (r : option (list T) * Z * option error * World) : list T :=
  items (fst (fst (fst r))).



(** The number of pages the metadata announce for a listing of [total]
    elements. *)
Definition total_pages (pageSize total : Z) : Z :=
  match utils.CalculatePagination 1 pageSize total with
  | Some pagination => Pagination.TotalPages pagination
  | None => 0
  end.


(** Some stored service already has the name or the slug of [body], under
    the collation of the unique keys. *)
Definition taken (cfg : mysql.Settings) (body : Service.t) (st : mysql.Store) : bool :=
  existsb (fun r => mysql.coll_eqb cfg (mysql.services.name r) (Service.Name body))
          (mysql.services_table st) ||
  existsb (fun r => mysql.coll_eqb cfg (mysql.services.slug r) (Service.Slug body))
          (mysql.services_table st).

(** The shape of every answer: a 200 or a 201, or else a 400, 404 or 500
    whose body is [{"error": text}]. *)
Definition well_formed (o : Outcome) : Prop :=
  exists code obj,
    o = JSON code obj /\
    (code = http.StatusOK \/ code = http.StatusCreated \/
     ((code = http.StatusBadRequest \/ code = http.StatusNotFound \/
       code = http.StatusInternalServerError) /\
      exists text, obj = json.H "error" text)).

(** * Properties *)

(** ** Integer arithmetic *)

Lemma wrap_in_range (z : Z) : GoInt.in_range z -> GoInt.wrap z = z.
Proof.
  unfold GoInt.in_range, GoInt.min_int, GoInt.max_int, GoInt.wrap.
  intros H. rewrite Z.mod_small; lia.
Qed.

Lemma wrap_sub_wrap (a b : Z) : GoInt.sub (GoInt.wrap a) b = GoInt.wrap (a - b).
Proof.
  unfold GoInt.sub, GoInt.wrap. f_equal.
  replace ((a + 2 ^ 63) mod 2 ^ 64 - 2 ^ 63 - b + 2 ^ 63)
    with ((a + 2 ^ 63) mod 2 ^ 64 + (- b)) by lia.
  replace (a - b + 2 ^ 63) with ((a + 2 ^ 63) + (- b)) by lia.
  rewrite Zplus_mod_idemp_l. reflexivity.
Qed.

(** Within the [int] range, [total + pageSize - 1] is computed exactly, even
    when the intermediate sum [total + pageSize] is [2^63]. *)
Lemma rounded_up_exact (total pageSize : Z) :
  GoInt.in_range (total + pageSize - 1) ->
  GoInt.sub (GoInt.add total pageSize) 1 = total + pageSize - 1.
Proof.
  intros H. unfold GoInt.add. rewrite wrap_sub_wrap. now apply wrap_in_range.
Qed.

Lemma quo_positive (a b : Z) :
  0 <= a <= GoInt.max_int -> 0 < b -> GoInt.quo a b = Some (a / b).
Proof.
  intros Ha Hb. unfold GoInt.quo.
  destruct (Z.eqb_spec b 0) as [E | _]; [lia |].
  rewrite Z.quot_div_nonneg by lia.
  rewrite wrap_in_range; [reflexivity |].
  unfold GoInt.in_range, GoInt.min_int, GoInt.max_int in *.
  assert (0 <= a / b) by (apply Z.div_pos; lia).
  assert (a / b <= a) by (apply Z.div_le_upper_bound; nia).
  lia.
Qed.

Lemma ceiling_of_rounded_up (total pageSize : Z) :
  0 <= total -> 1 <= pageSize ->
  is_ceiling total pageSize ((total + pageSize - 1) / pageSize).
Proof.
  intros Ht Hp. unfold is_ceiling.
  pose proof (Z.div_mod (total + pageSize - 1) pageSize ltac:(lia)) as E.
  pose proof (Z.mod_pos_bound (total + pageSize - 1) pageSize ltac:(lia)) as B.
  nia.
Qed.

(** ** Pagination metadata *)

Example CalculatePagination_first_page :
  utils.CalculatePagination 1 10 25 = Some (Pagination.mk 1 10 25 3 true false).
Proof. reflexivity. Qed.

(** C2, as stated, fails: with [pageSize = 2] and [total = 2^63 - 1] the sum
    [total + pageSize - 1] leaves the [int] range, and the quotient is
    negative, so it is not the ceiling of [total / pageSize]. *)
Lemma CalculatePagination_overflow :
  1 <= 1 /\ 1 <= 2 /\ 0 <= 9223372036854775807 /\
  utils.CalculatePagination 1 2 9223372036854775807
    = Some (Pagination.mk 1 2 9223372036854775807 (-4611686018427387904) false false) /\
  ~ is_ceiling 9223372036854775807 2 (-4611686018427387904).
Proof.
  repeat split; try lia; try reflexivity.
  unfold is_ceiling. lia.
Qed.

(** C2, amended: for [page >= 1], [pageSize >= 1] and [total >= 0] with
    [total + pageSize - 1] at most [2^63 - 1], [CalculatePagination] returns
    (without panicking) the record that echoes [page], [pageSize] and
    [total], whose [TotalPages] is the ceiling of [total / pageSize] (0
    exactly when [total] is 0), whose [HasNext] says [page < TotalPages] and
    whose [HasPrev] says [page > 1]. *)
Theorem CalculatePagination_spec (page pageSize total : Z) :
  1 <= page -> 1 <= pageSize -> 0 <= total ->
  total + pageSize - 1 <= GoInt.max_int ->
  exists totalPages hasNext hasPrev,
    utils.CalculatePagination page pageSize total
      = Some (Pagination.mk page pageSize total totalPages hasNext hasPrev) /\
    is_ceiling total pageSize totalPages /\
    (totalPages = 0 <-> total = 0) /\
    (hasNext = true <-> page < totalPages) /\
    (hasPrev = true <-> page > 1).
Proof.
  intros Hpage Hsize Htotal Hmax.
  exists ((total + pageSize - 1) / pageSize),
         (page <? (total + pageSize - 1) / pageSize), (1 <? page).
  assert (R : GoInt.in_range (total + pageSize - 1))
    by (unfold GoInt.in_range, GoInt.min_int, GoInt.max_int in *; lia).
  pose proof (ceiling_of_rounded_up total pageSize Htotal Hsize) as C.
  repeat split.
  - unfold utils.CalculatePagination.
    rewrite rounded_up_exact by exact R.
    rewrite quo_positive by lia. reflexivity.
  - apply C.
  - apply C.
  - unfold is_ceiling in C. nia.
  - unfold is_ceiling in C. nia.
  - apply Z.ltb_lt.
  - apply Z.ltb_lt.
  - intros H. apply Z.ltb_lt in H. lia.
  - intros H. apply Z.ltb_lt. lia.
Qed.

Lemma CalculatePagination_spec_witness :
  exists totalPages hasNext hasPrev,
    utils.CalculatePagination 2 10 25
      = Some (Pagination.mk 2 10 25 totalPages hasNext hasPrev) /\
    is_ceiling 25 10 totalPages /\
    (totalPages = 0 <-> 25 = 0) /\
    (hasNext = true <-> 2 < totalPages) /\
    (hasPrev = true <-> 2 > 1).
Proof.
  apply (CalculatePagination_spec 2 10 25); unfold GoInt.max_int; lia.
Defined.

(** ** [strconv.Atoi] on decimal numerals *)

Lemma digit_of_digit_char (d : Z) :
  0 <= d <= 9 ->
  strconv.digit_of (strconv.digit_char d) = Some d /\
  Ascii.eqb (strconv.digit_char d) "-" = false /\
  Ascii.eqb (strconv.digit_char d) "+" = false.
Proof.
  intros H.
  assert (C : d = 0 \/ d = 1 \/ d = 2 \/ d = 3 \/ d = 4 \/
              d = 5 \/ d = 6 \/ d = 7 \/ d = 8 \/ d = 9) by lia.
  repeat destruct C as [-> | C]; try subst d; repeat split.
Qed.

Lemma utoa_S (fuel : nat) (n : Z) (acc : string) :
  strconv.utoa (S fuel) n acc
    = if n <? 10 then String (strconv.digit_char (n mod 10)) acc
      else strconv.utoa fuel (n / 10) (String (strconv.digit_char (n mod 10)) acc).
Proof. reflexivity. Qed.

(** The digits [utoa] writes parse back to the number they were written
    for, on top of whatever was parsed before them. *)
Lemma parse_digits_utoa (fuel : nat) :
  forall n acc, 0 <= n < 10 ^ Z.of_nat (S fuel) ->
  exists k, forall a,
    strconv.parse_digits (strconv.utoa (S fuel) n acc) a
      = strconv.parse_digits acc (a * 10 ^ k + n) /\ 0 <= k.
Proof.
  induction fuel as [| fuel IH]; intros n acc Hn.
  - exists 1. intros a. rewrite utoa_S.
    change (10 ^ Z.of_nat 1) with 10 in Hn.
    destruct (Z.ltb_spec n 10); [| lia].
    cbn [strconv.parse_digits].
    rewrite Z.mod_small by lia.
    destruct (digit_of_digit_char n) as [-> _]; [lia |].
    split; [f_equal; lia | lia].
  - rewrite utoa_S. destruct (Z.ltb_spec n 10).
    + exists 1. intros a. cbn [strconv.parse_digits].
      rewrite Z.mod_small by lia.
      destruct (digit_of_digit_char n) as [-> _]; [lia |].
      split; [f_equal; lia | lia].
    + assert (Hq : 0 <= n / 10 < 10 ^ Z.of_nat (S fuel)).
      { split; [apply Z.div_pos; lia |].
        apply Z.div_lt_upper_bound; [lia |].
        replace (Z.of_nat (S (S fuel))) with (Z.succ (Z.of_nat (S fuel))) in Hn by lia.
        rewrite Z.pow_succ_r in Hn by lia. lia. }
      destruct (IH (n / 10) (String (strconv.digit_char (n mod 10)) acc) Hq)
        as [k Hk].
      exists (k + 1). intros a. destruct (Hk a) as [-> Hk0].
      cbn [strconv.parse_digits].
      pose proof (Z.mod_pos_bound n 10 ltac:(lia)) as Hm.
      destruct (digit_of_digit_char (n mod 10)) as [-> _]; [lia |].
      split; [| lia]. f_equal.
      rewrite Z.pow_add_r, Z.pow_1_r by lia.
      pose proof (Z.div_mod n 10 ltac:(lia)). lia.
Qed.

Lemma utoa_head (fuel : nat) :
  forall n acc, 0 <= n ->
  exists d rest,
    strconv.utoa (S fuel) n acc = String (strconv.digit_char d) rest /\ 0 <= d <= 9.
Proof.
  induction fuel as [| fuel IH]; intros n acc Hn; rewrite utoa_S.
  - pose proof (Z.mod_pos_bound n 10 ltac:(lia)).
    destruct (n <? 10); eexists _, _; (split; [reflexivity | lia]).
  - destruct (Z.ltb_spec n 10).
    + pose proof (Z.mod_pos_bound n 10 ltac:(lia)).
      eexists _, _; (split; [reflexivity | lia]).
    + apply IH. apply Z.div_pos; lia.
Qed.

(** [Atoi] inverts [Itoa] on the whole [int] range. *)
Lemma Atoi_Itoa (n : Z) : GoInt.in_range n -> strconv.Atoi (strconv.Itoa n) = Some n.
Proof.
  unfold GoInt.in_range, GoInt.min_int, GoInt.max_int. intros Hn.
  assert (P : forall m, 0 <= m <= 2 ^ 63 ->
                strconv.parse_digits (strconv.utoa 20 m "") 0 = Some m).
  { intros m Hm. destruct (parse_digits_utoa 19 m "") as [k Hk].
    - change (10 ^ Z.of_nat 20) with 100000000000000000000. lia.
    - destruct (Hk 0) as [-> _]. reflexivity. }
  unfold strconv.Itoa. destruct (Z.ltb_spec n 0).
  - unfold strconv.Atoi. cbn [Ascii.eqb Bool.eqb andb orb].
    destruct (utoa_head 19 (- n) "") as (d & rest & E & Hd); [lia |].
    rewrite P by lia. rewrite E.
    unfold GoInt.min_int, GoInt.max_int.
    destruct (Z.leb_spec (- 2 ^ 63) (- - n)); [| lia].
    destruct (Z.leb_spec (- - n) (2 ^ 63 - 1)); [| lia].
    cbn. f_equal. lia.
  - destruct (utoa_head 19 n "") as (d & rest & E & Hd); [lia |].
    pose proof (P n ltac:(lia)) as Pn. rewrite E in *.
    unfold strconv.Atoi.
    destruct (digit_of_digit_char d Hd) as (_ & -> & ->). cbn [orb].
    rewrite Pn. unfold GoInt.min_int, GoInt.max_int.
    destruct (Z.leb_spec (- 2 ^ 63) n); [| lia].
    destruct (Z.leb_spec n (2 ^ 63 - 1)); [| lia].
    reflexivity.
Qed.

Lemma parse_digits_rejects (pre : string) (c : ascii) (post : string) :
  strconv.digit_of c = None ->
  forall a, strconv.parse_digits (pre ++ String c post) a = None.
Proof.
  intros Hc. induction pre as [| p pre IH]; intros a; cbn.
  - now rewrite Hc.
  - destruct (strconv.digit_of p); auto.
Qed.

(** [Atoi] refuses every string with a character that is not a decimal
    digit, a leading sign apart. *)
Lemma Atoi_rejects (pre : string) (c : ascii) (post : string) :
  strconv.digit_of c = None ->
  pre <> "" \/ (c <> "-" /\ c <> "+")%char ->
  strconv.Atoi (pre ++ String c post) = None.
Proof.
  intros Hc Hsign.
  pose proof (parse_digits_rejects pre c post Hc) as H.
  destruct pre as [| p pre]; cbn [String.append] in *.
  - destruct Hsign as [? | [Hm Hp]]; [contradiction |].
    unfold strconv.Atoi.
    apply Ascii.eqb_neq in Hm, Hp. rewrite Hm, Hp. cbn [orb].
    now rewrite H.
  - pose proof (parse_digits_rejects pre c post Hc) as H'.
    unfold strconv.Atoi.
    destruct (Ascii.eqb p "-" || Ascii.eqb p "+").
    + set (t := (pre ++ String c post)%string) in *. clearbody t.
      destruct t; [reflexivity |]. now rewrite H'.
    + now rewrite H.
Qed.

(** ** Parameter extraction *)

Lemma Atoi_empty : strconv.Atoi "" = None.
Proof. reflexivity. Qed.

Lemma extracted_field (default : Z) (raw : option string) :
  Extracted default raw
    (let s := match raw with Some v => v | None => "" end in
     if negb (String.eqb s "") then
       match strconv.Atoi s with
       | Some n => if 0 <? n then n else default
       | None => default
       end
     else default).
Proof.
  destruct raw as [s |]; cbn zeta.
  - destruct (String.eqb_spec s "") as [-> | _]; cbn [negb].
    + constructor.
    + destruct (strconv.Atoi s) as [n |] eqn:E.
      * destruct (Z.ltb_spec 0 n).
        -- now apply Extracted_positive.
        -- now apply Extracted_non_positive with n.
      * now apply Extracted_unparsable.
  - constructor.
Qed.

Section Extraction.

Context {B : Type} (c : gin.Context B).

Let field (default : Z) (key : string) : Z :=
  let s := gin.Query c key in
  if negb (String.eqb s "") then
    match strconv.Atoi s with
    | Some n => if 0 <? n then n else default
    | None => default
    end
  else default.

Lemma GetPaginationParams_fields :
  utils.GetPaginationParams c
    = PaginationParams.mk (field 1 "page") (field 10 "page_size").
Proof.
  unfold utils.GetPaginationParams, field. cbn zeta.
  destruct (negb (String.eqb (gin.Query c "page") ""));
    [destruct (strconv.Atoi (gin.Query c "page")) as [n |];
     [destruct (0 <? n) |] |];
    (destruct (negb (String.eqb (gin.Query c "page_size") ""));
     [destruct (strconv.Atoi (gin.Query c "page_size")) as [m |];
      [destruct (0 <? m) |] |]);
    reflexivity.
Qed.

Lemma GetSearchParams_fields :
  utils.GetSearchParams c
    = SearchParams.mk (gin.Query c "q") (field 1 "page") (field 10 "page_size").
Proof.
  unfold utils.GetSearchParams, field. cbn zeta.
  destruct (negb (String.eqb (gin.Query c "page") ""));
    [destruct (strconv.Atoi (gin.Query c "page")) as [n |];
     [destruct (0 <? n) |] |];
    (destruct (negb (String.eqb (gin.Query c "page_size") ""));
     [destruct (strconv.Atoi (gin.Query c "page_size")) as [m |];
      [destruct (0 <? m) |] |]);
    reflexivity.
Qed.

Lemma field_extracted (default : Z) (key : string) :
  Extracted default (gin.GetQuery (gin.url_query c) key) (field default key).
Proof. apply extracted_field. Qed.

Lemma field_positive (default : Z) (key : string) :
  1 <= default -> 1 <= field default key.
Proof.
  intros H. unfold field. cbn zeta.
  destruct (negb _); [| exact H].
  destruct (strconv.Atoi _) as [n |]; [| exact H].
  destruct (Z.ltb_spec 0 n); lia.
Qed.

Lemma field_of_numeral (default : Z) (key : string) (n : Z) :
  GoInt.in_range n -> gin.Query c key = strconv.Itoa n ->
  field default key = if 0 <? n then n else default.
Proof.
  intros Hn Hq. unfold field. cbn zeta. rewrite Hq, Atoi_Itoa by exact Hn.
  destruct (String.eqb_spec (strconv.Itoa n) ""); [| reflexivity].
  pose proof (Atoi_Itoa n Hn) as A. rewrite e in A. discriminate A.
Qed.

(** C4: [GetPaginationParams] and [GetSearchParams] always return, with
    [page] and [pageSize] extracted as the spec says (defaults 1 and 10
    for an absent, empty, unparsable, zero or negative parameter; the
    parsed number otherwise), and the search query is the raw [q].  In
    particular a parameter that is the decimal numeral of an [int] [n]
    yields [n] when [n] is positive and the default otherwise. *)
Theorem extraction_defaults :
  let p := utils.GetPaginationParams c in
  let s := utils.GetSearchParams c in
  Extracted 1 (gin.GetQuery (gin.url_query c) "page") (PaginationParams.Page p) /\
  Extracted 10 (gin.GetQuery (gin.url_query c) "page_size")
            (PaginationParams.PageSize p) /\
  Extracted 1 (gin.GetQuery (gin.url_query c) "page") (SearchParams.Page s) /\
  Extracted 10 (gin.GetQuery (gin.url_query c) "page_size")
            (SearchParams.PageSize s) /\
  SearchParams.Query s = gin.Query c "q" /\
  (forall n, GoInt.in_range n -> gin.Query c "page" = strconv.Itoa n ->
     PaginationParams.Page p = (if 0 <? n then n else 1) /\
     SearchParams.Page s = (if 0 <? n then n else 1)) /\
  (forall n, GoInt.in_range n -> gin.Query c "page_size" = strconv.Itoa n ->
     PaginationParams.PageSize p = (if 0 <? n then n else 10) /\
     SearchParams.PageSize s = (if 0 <? n then n else 10)).
Proof.
  cbn zeta. rewrite GetPaginationParams_fields, GetSearchParams_fields. cbn.
  repeat split; try apply field_extracted; now apply field_of_numeral.
Qed.

Lemma extraction_fields_query :
  SearchParams.Query (utils.GetSearchParams c) = gin.Query c "q".
Proof. now rewrite GetSearchParams_fields. Qed.

Lemma extracted_at_least_one :
  1 <= PaginationParams.Page (utils.GetPaginationParams c) /\
  1 <= PaginationParams.PageSize (utils.GetPaginationParams c).
Proof.
  rewrite GetPaginationParams_fields. cbn. split; apply field_positive; lia.
Qed.

Lemma search_params_agree :
  SearchParams.Page (utils.GetSearchParams c)
    = PaginationParams.Page (utils.GetPaginationParams c) /\
  SearchParams.PageSize (utils.GetSearchParams c)
    = PaginationParams.PageSize (utils.GetPaginationParams c).
Proof.
  rewrite GetPaginationParams_fields, GetSearchParams_fields. now cbn.
Qed.

End Extraction.

(** ** The range check and the pagination envelope *)

Lemma validate_passes (page pageSize : Z) :
  handlers.validate page pageSize = None -> 1 <= page /\ 1 <= pageSize <= 100.
Proof.
  unfold handlers.validate.
  destruct (Z.ltb_spec page 1); [discriminate |].
  destruct (Z.ltb_spec pageSize 1); [discriminate |].
  destruct (Z.ltb_spec 100 pageSize); [discriminate |].
  intros _. lia.
Qed.

Lemma validate_rejects (page pageSize : Z) (r : Outcome) :
  handlers.validate page pageSize = Some r ->
  (page < 1 /\ r = page_rejected) \/
  (1 <= page /\ (pageSize < 1 \/ 100 < pageSize) /\ r = page_size_rejected).
Proof.
  unfold handlers.validate.
  destruct (Z.ltb_spec page 1).
  - intros [= <-]. now left.
  - destruct (Z.ltb_spec pageSize 1); cbn [orb].
    + intros [= <-]. right. repeat split; auto.
    + destruct (Z.ltb_spec 100 pageSize); [| discriminate].
      intros [= <-]. right. repeat split; auto.
Qed.

Lemma CalculatePagination_defined (page pageSize total : Z) :
  pageSize <> 0 -> utils.CalculatePagination page pageSize total <> None.
Proof.
  intros H. unfold utils.CalculatePagination, GoInt.quo.
  destruct (Z.eqb_spec pageSize 0); [contradiction | discriminate].
Qed.

Lemma rejection_sound (page pageSize : Z) (r : Outcome) :
  1 <= page -> 1 <= pageSize ->
  handlers.validate page pageSize = Some r -> sound_outcome page pageSize r.
Proof.
  intros Hp Hs V. apply validate_rejects in V as [[? _] | (_ & [? | ?] & ->)];
    try lia.
  unfold sound_outcome, page_size_rejected, page_rejected.
  repeat split; try discriminate; try lia.
Qed.

Lemma paginated_sound (page pageSize total : Z) (data : json.value)
      (err : option error) :
  1 <= page -> 1 <= pageSize <= 100 ->
  sound_outcome page pageSize (handlers.paginated page pageSize data total err).
Proof.
  intros Hp Hs. unfold handlers.paginated, sound_outcome.
  destruct err as [e |].
  - repeat split; try discriminate; try lia.
  - destruct (utils.CalculatePagination page pageSize total) as [pg |] eqn:E.
    + split; [discriminate |]. split; [discriminate |]. split; [discriminate |].
      intros obj [= <-]. split; [lia |]. split; [lia |].
      now exists data, total, pg.
    + exfalso. revert E. apply CalculatePagination_defined. lia.
Qed.

Ltac run_io :=
  repeat match goal with
         | |- context [bind ?m ?k ?w] =>
             change (bind m k w) with (let (a, w') := m w in k a w'); cbv beta
         | |- context [let (_, _) := ?x in _] => destruct x
         end.

(** C5: extraction yields [page >= 1] and [pageSize >= 1]; a request that
    passes the range check has [page >= 1] and [1 <= pageSize <= 100], for
    which [CalculatePagination] does not divide by zero; and so no list or
    search handler panics, none rejects the page, and the page size is
    rejected only when it exceeds 100. *)
Theorem pagination_arguments_in_range {B : Type} (c : gin.Context B) (w : World) :
  let page := PaginationParams.Page (utils.GetPaginationParams c) in
  let pageSize := PaginationParams.PageSize (utils.GetPaginationParams c) in
  (1 <= page /\ 1 <= pageSize) /\
  (SearchParams.Page (utils.GetSearchParams c) = page /\
   SearchParams.PageSize (utils.GetSearchParams c) = pageSize) /\
  (forall p s, handlers.validate p s = None ->
     1 <= p /\ 1 <= s <= 100 /\
     forall total, utils.CalculatePagination p s total <> None) /\
  sound_outcome page pageSize (fst (handlers.GetServices c w)) /\
  sound_outcome page pageSize (fst (handlers.SearchServices c w)) /\
  sound_outcome page pageSize (fst (handlers.GetVersions c w)).
Proof.
  cbn zeta.
  destruct (extracted_at_least_one c) as [Hp Hs].
  destruct (search_params_agree c) as [Ep Es].
  split; [auto |]. split; [auto |]. split.
  { intros p s V. apply validate_passes in V as [? ?].
    repeat split; try lia. intros total. apply CalculatePagination_defined. lia. }
  split; [| split].
  - unfold handlers.GetServices.
    destruct (handlers.validate _ _) as [r |] eqn:V.
    + now apply rejection_sound.
    + apply validate_passes in V as [? ?].
      run_io. cbn [fst ret]. now apply paginated_sound.
  - unfold handlers.SearchServices. rewrite Ep, Es.
    destruct (String.eqb _ ""); [| destruct (handlers.validate _ _) as [r |] eqn:V].
    + cbn. unfold sound_outcome, page_rejected, page_size_rejected.
      repeat split; discriminate.
    + now apply rejection_sound.
    + apply validate_passes in V as [? ?].
      run_io. cbn [fst ret]. now apply paginated_sound.
  - unfold handlers.GetVersions.
    destruct (handlers.validate _ _) as [r |] eqn:V.
    + now apply rejection_sound.
    + apply validate_passes in V as [? ?].
      run_io. cbn [fst ret]. now apply paginated_sound.
Qed.

(** ** The bounds on [page_size] *)









(** ** The version-creation transaction *)

Lemma insert_version_accepted cfg now id service_id semver status changelog st st' n :
  mysql.insert_version cfg now id service_id semver status changelog st
    = inr (st', n) ->
  st' = mysql.mkStore
          (mysql.services_table st)
          (mysql.versions_table st ++
           [mysql.versions.mk id service_id semver status changelog now]) /\
  n = 1.
Proof.
  unfold mysql.insert_version.
  destruct (existsb _ (mysql.versions_table st)); [discriminate |].
  destruct (mysql.foreign_key_checks cfg && _); [discriminate |].
  now intros [= <- <-].
Qed.

Lemma update_versions_count_accepted cfg now service_id st st' n :
  mysql.update_versions_count cfg now service_id st = inr (st', n) ->
  st' = mysql.mkStore
          (map (fun r => if mysql.id_is cfg service_id r then mysql.bump now r else r)
               (mysql.services_table st))
          (mysql.versions_table st) /\
  n = mysql.count (mysql.id_is cfg service_id) (mysql.services_table st).
Proof.
  unfold mysql.update_versions_count.
  destruct (existsb _ (mysql.services_table st)); [discriminate |].
  now intros [= <- <-].
Qed.

(** What the store holds once both writes of [CreateVersion] are in. *)
Lemma both_writes cfg now (version : Version.t) st st1 st2 n1 n2 :
  mysql.execute cfg now
    (mysql.INSERT_INTO_versions (Version.ID version) (Version.ServiceID version)
       (Version.Semver version) (Version.Status version) (Version.Changelog version))
    st = inr (st1, n1) ->
  mysql.execute cfg now
    (mysql.UPDATE_services_versions_count (Version.ServiceID version)) st1
    = inr (st2, n2) ->
  mysql.versions_table st2
    = mysql.versions_table st ++
      [mysql.versions.mk (Version.ID version) (Version.ServiceID version)
         (Version.Semver version) (Version.Status version)
         (Version.Changelog version) now] /\
  mysql.services_table st2
    = map (fun r => if mysql.id_is cfg (Version.ServiceID version) r
                    then mysql.bump now r else r)
          (mysql.services_table st).
Proof.
  cbn [mysql.execute]. intros H1 H2.
  apply insert_version_accepted in H1 as [-> _].
  apply update_versions_count_accepted in H2 as [-> _].
  now cbn.
Qed.



Opaque mysql.execute.

Ltac committed :=
  left; split; [reflexivity |]; do 4 eexists; repeat split; eassumption.

(** The two ways [CreateVersion] ends: with [nil], both statements having
    been accepted and their result committed; or with an error, the
    committed store untouched. *)
Lemma CreateVersion_cases (version : Version.t) (w : World) :
  let insert :=
    mysql.INSERT_INTO_versions (Version.ID version) (Version.ServiceID version)
      (Version.Semver version) (Version.Status version) (Version.Changelog version) in
  let update := mysql.UPDATE_services_versions_count (Version.ServiceID version) in
  let r := database.CreateVersion version w in
  (fst r = None /\
   exists st1 st2 n1 n2,
     mysql.execute (settings w) (clock w) insert (db w) = inr (st1, n1) /\
     mysql.execute (settings w) (clock w) update st1 = inr (st2, n2) /\
     db (snd r) = st2) \/
  (exists e, fst r = Some e /\ db (snd r) = db w).
Proof.
  cbn zeta.
  unfold database.CreateVersion, database.CreateVersion_body.
  unfold sql.Begin, sql.Tx_Exec, sql.Commit, sql.Rollback, sql.attempt, log.Printf.
  unfold bind, ret.
  destruct w as [st cfg now fs ent k lg]. cbn.
  assert (failed : forall (e : error) P, P \/ exists e', Some e = Some e' /\ st = st)
    by (intros e P; right; now exists e).
  (* [Begin] *)
  destruct fs as [| [f1 |] fs]; cbn; try apply failed.
  - (* no fault is pending *)
    destruct (mysql.execute cfg now (mysql.INSERT_INTO_versions _ _ _ _ _) st)
      as [e1 | [st1 n1]] eqn:E1; cbn; [apply failed |].
    destruct (mysql.execute cfg now (mysql.UPDATE_services_versions_count _) st1)
      as [e2 | [st2 n2]] eqn:E2; cbn; [apply failed |].
    committed.
  - (* the insert *)
    destruct fs as [| [f2 |] fs]; cbn.
    + destruct (mysql.execute cfg now (mysql.INSERT_INTO_versions _ _ _ _ _) st)
        as [e1 | [st1 n1]] eqn:E1; cbn; [apply failed |].
      destruct (mysql.execute cfg now (mysql.UPDATE_services_versions_count _) st1)
        as [e2 | [st2 n2]] eqn:E2; cbn; [apply failed |].
      committed.
    + destruct fs as [| [f3 |] fs]; apply failed.
    + destruct (mysql.execute cfg now (mysql.INSERT_INTO_versions _ _ _ _ _) st)
        as [e1 | [st1 n1]] eqn:E1; cbn.
      { destruct fs as [| [f3 |] fs]; apply failed. }
      (* the update *)
      destruct fs as [| [f3 |] fs]; cbn.
      * destruct (mysql.execute cfg now (mysql.UPDATE_services_versions_count _) st1)
          as [e2 | [st2 n2]] eqn:E2; cbn; [apply failed |].
        committed.
      * destruct fs as [| [f4 |] fs]; apply failed.
      * destruct (mysql.execute cfg now (mysql.UPDATE_services_versions_count _) st1)
          as [e2 | [st2 n2]] eqn:E2; cbn.
        { destruct fs as [| [f4 |] fs]; apply failed. }
        (* the commit *)
        destruct fs as [| [f4 |] fs]; cbn;
          first [apply failed | committed].
Qed.

Transparent mysql.execute.


Example CreateVersion_commits :
  let version := Version.mk "v-5" "service-2" "0.2.0" "draft" "More work" "" in
  let after := db (snd (database.CreateVersion version seeded_world)) in
  fst (database.CreateVersion version seeded_world) = None /\
  map mysql.versions.id (mysql.versions_table after)
    = ["version-1"; "version-2"; "version-3"; "version-4"; "v-5"] /\
  map mysql.services.versions_count (mysql.services_table after) = [2; 2; 1].
Proof. vm_compute. repeat split. Qed.

Example CreateVersion_rolls_back_a_failed_commit :
  let version := Version.mk "v-5" "service-2" "0.2.0" "draft" "More work" "" in
  let w := set_faults [None; None; None; Some "invalid connection"] seeded_world in
  fst (database.CreateVersion version w) = Some (DriverError "invalid connection") /\
  db (snd (database.CreateVersion version w)) = seeded.
Proof. vm_compute. repeat split. Qed.

(** ** Versions of a service that does not exist *)







Example version_of_unknown_service_with_foreign_key :
  status_of (fst (handlers.CreateVersion
                    (gin.mkContext [] "non-existing"
                       (inr (Version.mk "" "" "1.0.0" "released" "Test version" "")))
                    seeded_world))
    = Some http.StatusInternalServerError.
Proof. reflexivity. Qed.

(** ** Creating a service and reading it back *)

Lemma append_not_empty (a b : string) : b <> "" -> (a ++ b)%string <> "".
Proof. destruct a; cbn; [auto | discriminate]. Qed.

Lemma format_time_not_empty (t : mysql.Timestamp) : mysql.format_time t <> "".
Proof. unfold mysql.format_time. apply append_not_empty. discriminate. Qed.

Lemma uuid_String_not_empty (u : uuid.UUID) : uuid.String_ u <> "".
Proof. unfold uuid.String_. apply append_not_empty. discriminate. Qed.

Lemma coll_eqb_refl cfg (a : string) : mysql.coll_eqb cfg a a = true.
Proof. unfold mysql.coll_eqb. apply String.eqb_refl. Qed.

Lemma find_appended {A} (p : A -> bool) (l : list A) (x : A) :
  existsb p l = false -> p x = true -> find p (l ++ [x]) = Some x.
Proof.
  intros Hl Hx. induction l as [| y l IH]; cbn in *.
  - now rewrite Hx.
  - destruct (p y); [discriminate | auto].
Qed.

Lemma insert_service_accepted cfg now id name slug description st st' n :
  mysql.insert_service cfg now id name slug description st = inr (st', n) ->
  existsb (mysql.id_is cfg id) (mysql.services_table st) = false /\
  st' = mysql.mkStore
          (mysql.services_table st ++
           [mysql.services.mk id name slug description now now 0])
          (mysql.versions_table st).
Proof.
  unfold mysql.insert_service.
  destruct (existsb (mysql.id_is cfg id) _); [discriminate |].
  destruct (existsb _ _); [discriminate |].
  destruct (existsb _ _); [discriminate |].
  now intros [= <- <-].
Qed.

(** What [CreateService] has done when it answers 201. *)
Lemma CreateService_created (c : gin.Context Service.t) (body : Service.t) (w : World) :
  gin.ShouldBindJSON c = inr body ->
  status_of (fst (handlers.CreateService c w)) = Some http.StatusCreated ->
  let id := uuid.String_ (entropy w (drawn w)) in
  fst (handlers.CreateService c w)
    = JSON http.StatusCreated (json.of_Service (handlers.with_ID body id)) /\
  settings (snd (handlers.CreateService c w)) = settings w /\
  existsb (mysql.id_is (settings w) id) (mysql.services_table (db w)) = false /\
  db (snd (handlers.CreateService c w))
    = mysql.mkStore
        (mysql.services_table (db w) ++
         [mysql.services.mk id (Service.Name body) (Service.Slug body)
                            (Service.Description body) (clock w) (clock w) 0])
        (mysql.versions_table (db w)).
Proof.
  intros Hbind. cbn zeta. unfold handlers.CreateService. rewrite Hbind.
  unfold bind, uuid.New, database.CreateService, sql.Exec, sql.attempt, ret, bind.
  destruct w as [st cfg now fs ent k lg]. cbn.
  destruct fs as [| [f |] fs]; cbn; try discriminate;
    (destruct (mysql.insert_service _ _ _ _ _ _ st) as [e | [st' n]] eqn:E; cbn;
     [discriminate |]);
    intros _; apply insert_service_accepted in E as [F ->]; auto.
Qed.

(** C8, as stated, fails: the creation response echoes the
    [versions_count] of the request body (5 here), and the entity fetched by
    the returned id has the stored one (0). *)
Lemma created_versions_count_is_echoed :
  let body := Service.mk "" "Billing" "billing" "Invoices" "" "" 5 in
  let created := handlers.CreateService (gin.mkContext [] "" (inr body)) seeded_world in
  let id := "00010203-0405-0607-0809-0a0b0c0d0e0f" in
  let fetched := handlers.GetService (GET [] id) (snd created) in
  fst created
    = JSON http.StatusCreated
           (json.of_Service (Service.mk id "Billing" "billing" "Invoices" "" "" 5)) /\
  fst fetched
    = JSON http.StatusOK
           (json.of_Service
              (Service.mk id "Billing" "billing" "Invoices"
                          "2024-01-15T10:31:07Z" "2024-01-15T10:31:07Z" 0)).
Proof. vm_compute. split; reflexivity. Qed.

(** C8, amended: a service created through the create endpoint (answer 201)
    and then fetched by the id of the creation response, from a store that
    does not fail, comes back with the id, name, slug and description of
    the creation response, a [versions_count] of 0 (that of the creation
    response when the request body carried none), and a non-empty id,
    [created_at] and [updated_at]. *)
Theorem created_service_round_trip {B : Type}
        (c : gin.Context Service.t) (body : Service.t) (w : World)
        (g : gin.Context B) (w2 : World) :
  gin.ShouldBindJSON c = inr body ->
  status_of (fst (handlers.CreateService c w)) = Some http.StatusCreated ->
  db w2 = db (snd (handlers.CreateService c w)) ->
  settings w2 = settings w ->
  faults w2 = [] ->
  exists created fetched,
    fst (handlers.CreateService c w)
      = JSON http.StatusCreated (json.of_Service created) /\
    (gin.Param g = Service.ID created ->
     fst (handlers.GetService g w2) = JSON http.StatusOK (json.of_Service fetched)) /\
    Service.ID fetched = Service.ID created /\
    Service.Name fetched = Service.Name created /\
    Service.Slug fetched = Service.Slug created /\
    Service.Description fetched = Service.Description created /\
    Service.VersionsCount fetched = 0 /\
    Service.VersionsCount created = Service.VersionsCount body /\
    Service.ID fetched <> "" /\
    Service.CreatedAt fetched <> "" /\
    Service.UpdatedAt fetched <> "".
Proof.
  intros Hbind Hok Hdb Hcfg Hf.
  destruct (CreateService_created c body w Hbind Hok) as (R & _ & Fresh & D).
  cbn zeta in *.
  set (id := uuid.String_ (entropy w (drawn w))) in *.
  set (row := mysql.services.mk id (Service.Name body) (Service.Slug body)
                (Service.Description body) (clock w) (clock w) 0) in *.
  exists (handlers.with_ID body id), (database.scan_service row).
  split; [exact R |]. split.
  - cbn [handlers.with_ID Service.ID]. intros Hid.
    unfold handlers.GetService, database.GetServiceByID, sql.QueryRow, sql.attempt.
    unfold bind, ret. rewrite Hf, Hid, Hdb, Hcfg, D.
    unfold mysql.select_service. cbn [mysql.services_table].
    rewrite (find_appended _ _ row Fresh) by apply coll_eqb_refl.
    reflexivity.
  - cbn. repeat split; try reflexivity.
    + apply uuid_String_not_empty.
    + apply format_time_not_empty.
    + apply format_time_not_empty.
Qed.

Lemma created_service_round_trip_witness :
  let body := Service.mk "" "Billing" "billing" "Invoices" "" "" 0 in
  let c := gin.mkContext [] "" (inr body) in
  exists created fetched,
    fst (handlers.CreateService c seeded_world)
      = JSON http.StatusCreated (json.of_Service created) /\
    (gin.Param (GET [] "00010203-0405-0607-0809-0a0b0c0d0e0f") = Service.ID created ->
     fst (handlers.GetService (GET [] "00010203-0405-0607-0809-0a0b0c0d0e0f")
                              (snd (handlers.CreateService c seeded_world)))
       = JSON http.StatusOK (json.of_Service fetched)) /\
    Service.ID fetched = Service.ID created /\
    Service.Name fetched = Service.Name created /\
    Service.Slug fetched = Service.Slug created /\
    Service.Description fetched = Service.Description created /\
    Service.VersionsCount fetched = 0 /\
    Service.VersionsCount created = Service.VersionsCount body /\
    Service.ID fetched <> "" /\
    Service.CreatedAt fetched <> "" /\
    Service.UpdatedAt fetched <> "".
Proof.
  cbn zeta.
  apply (created_service_round_trip
           (gin.mkContext [] "" (inr (Service.mk "" "Billing" "billing" "Invoices" "" "" 0)))
           (Service.mk "" "Billing" "billing" "Invoices" "" "" 0)
           seeded_world
           (GET [] "00010203-0405-0607-0809-0a0b0c0d0e0f"));
    reflexivity.
Defined.

(** ** Updating a service *)

Lemma count_zero {A} (p : A -> bool) (l : list A) :
  mysql.count p l = 0 <-> existsb p l = false.
Proof.
  unfold mysql.count. induction l as [| x l IH]; cbn; [tauto |].
  destruct (p x); cbn [List.length orb]; [| exact IH].
  split; [lia | discriminate].
Qed.

Lemma changes_false (name slug description : string) (r : mysql.services.row) :
  mysql.changes name slug description r = false ->
  mysql.services.name r = name /\
  mysql.services.slug r = slug /\
  mysql.services.description r = description.
Proof.
  unfold mysql.changes. intros H. apply negb_false_iff in H.
  apply andb_true_iff in H as [H Hd]. apply andb_true_iff in H as [Hn Hs].
  apply String.eqb_eq in Hn, Hs, Hd. auto.
Qed.

Lemma update_service_accepted cfg now (body : Service.t) id st st' n :
  mysql.update_service cfg now (Service.Name body) (Service.Slug body)
                       (Service.Description body) id st = inr (st', n) ->
  mysql.versions_table st' = mysql.versions_table st /\
  Forall2 (fun r r' => if mysql.id_is cfg id r then replaced_by body r r' else r' = r)
          (mysql.services_table st) (mysql.services_table st') /\
  (n = 0 -> existsb (mysql.id_is cfg id) (mysql.services_table st) = true ->
   mysql.clientFoundRows cfg = false /\ mysql.services_table st' = mysql.services_table st).
Proof.
  unfold mysql.update_service.
  destruct (existsb _ _); [discriminate |].
  destruct (existsb _ _); [discriminate |].
  intros [= <- <-]. cbn [mysql.versions_table mysql.services_table].
  split; [reflexivity |]. split.
  - induction (mysql.services_table st) as [| r rows IH]; cbn [map]; constructor;
      [| exact IH].
    destruct (mysql.id_is cfg id r) eqn:Hit; cbn [andb]; [| reflexivity].
    destruct (mysql.changes _ _ _ r) eqn:Ch; unfold replaced_by; cbn.
    + repeat split.
    + apply changes_false in Ch as (-> & -> & ->). repeat split.
  - destruct (mysql.clientFoundRows cfg).
    + intros Z Hex. apply count_zero in Z. congruence.
    + intros Z _. split; [reflexivity |]. apply count_zero in Z.
      induction (mysql.services_table st) as [| r rows IH]; cbn in *; [reflexivity |].
      apply orb_false_iff in Z as [-> Z]. now rewrite IH.
Qed.

(** C9: an update with a well-formed body of an id some row has, which the
    store accepts (the answer is not 500), leaves every row of that id with
    the body's name, slug and description, nothing of what it had in those
    fields, and with its own id, creation time and version counter; other
    rows and all versions are as before.  The answer is 200 with the body
    under the id of the path (whatever id the body carried), or 404 when
    the update changed no row. *)
Theorem update_replaces_fields
        (c : gin.Context Service.t) (body : Service.t) (w : World) :
  gin.ShouldBindJSON c = inr body ->
  existsb (mysql.id_is (settings w) (gin.Param c)) (mysql.services_table (db w))
    = true ->
  status_of (fst (handlers.UpdateService c w)) <> Some http.StatusInternalServerError ->
  let after := db (snd (handlers.UpdateService c w)) in
  mysql.versions_table after = mysql.versions_table (db w) /\
  Forall2 (fun r r' =>
             if mysql.id_is (settings w) (gin.Param c) r
             then replaced_by body r r' else r' = r)
          (mysql.services_table (db w)) (mysql.services_table after) /\
  ((fst (handlers.UpdateService c w)
      = JSON http.StatusOK (json.of_Service (handlers.with_ID body (gin.Param c))) /\
    json.member "id" (json.of_Service (handlers.with_ID body (gin.Param c)))
      = Some (json.Str (gin.Param c))) \/
   (fst (handlers.UpdateService c w) = not_found /\
    mysql.clientFoundRows (settings w) = false /\
    mysql.services_table after = mysql.services_table (db w))).
Proof.
  intros Hbind Hex. cbn zeta. unfold handlers.UpdateService. rewrite Hbind.
  unfold bind, database.UpdateService, sql.Exec, sql.attempt, ret, bind.
  destruct w as [st cfg now fs ent k lg]. cbn in *.
  destruct fs as [| [f |] fs]; cbn; try (intros H; now contradiction H);
    (destruct (mysql.update_service _ _ _ _ _ _ st) as [e | [st' n]] eqn:E; cbn;
     [intros H; now contradiction H |]);
    intros _; apply update_service_accepted in E as (V & F & Z);
    (destruct (Z.eqb_spec n 0) as [N | N]; cbn;
     [destruct (Z N Hex) as [? ?]; split; [exact V |]; split; [exact F |]; right; auto
     | split; [exact V |]; split; [exact F |]; left; auto]).
Qed.

Lemma update_replaces_fields_witness :
  let body := Service.mk "ignored" "Locator" "locator" "" "" "" 7 in
  let c := gin.mkContext [] "service-2" (inr body) in
  fst (handlers.UpdateService c seeded_world)
    = JSON http.StatusOK
           (json.of_Service (Service.mk "service-2" "Locator" "locator" "" "" "" 7)) /\
  map mysql.services.name
      (mysql.services_table (db (snd (handlers.UpdateService c seeded_world))))
    = ["Test Service 1"; "Locator"; "Notification Service"].
Proof.
  cbn zeta.
  pose proof (update_replaces_fields
                (gin.mkContext [] "service-2"
                   (inr (Service.mk "ignored" "Locator" "locator" "" "" "" 7)))
                (Service.mk "ignored" "Locator" "locator" "" "" "" 7)
                seeded_world eq_refl eq_refl) as H.
  split; [| reflexivity].
  destruct H as (_ & _ & [[R _] | [R _]]); [discriminate | exact R | discriminate R].
Defined.

(** ** Not found *)


Lemma find_none_iff {A} (p : A -> bool) (l : list A) :
  find p l = None <-> existsb p l = false.
Proof.
  induction l as [| x l IH]; cbn; [tauto |].
  destruct (p x); cbn; [split; discriminate | exact IH].
Qed.

Lemma existsb_filter_out {A} (p : A -> bool) (l : list A) :
  existsb p (filter (fun x => negb (p x)) l) = false.
Proof.
  induction l as [| x l IH]; cbn; [reflexivity |].
  destruct (p x) eqn:E; cbn; [exact IH | now rewrite E].
Qed.

(** [DeleteService] on a store that does not fail: 404 and no change when
    no row has the id; otherwise 200, and no row has the id any more. *)
Lemma DeleteService_found_or_not {B : Type} (g : gin.Context B) (w : World) :
  faults w = [] ->
  let r := handlers.DeleteService g w in
  let hit := mysql.id_is (settings w) (gin.Param g) in
  if existsb hit (mysql.services_table (db w))
  then fst r = JSON http.StatusOK (json.H "message" "Service deleted") /\
       mysql.services_table (db (snd r))
         = filter (fun row => negb (hit row)) (mysql.services_table (db w)) /\
       existsb hit (mysql.services_table (db (snd r))) = false
  else fst r = not_found /\ mysql.services_table (db (snd r)) = mysql.services_table (db w).
Proof.
  intros Hf. cbn zeta. unfold handlers.DeleteService, database.DeleteService.
  unfold sql.Exec, sql.attempt, bind, ret. rewrite Hf.
  destruct w as [st cfg now fs ent k lg]. cbn.
  destruct (existsb _ _) eqn:Hex.
  - destruct (Z.eqb_spec (mysql.count (mysql.id_is cfg (gin.Param g))
                                      (mysql.services_table st)) 0) as [Z | _].
    + apply count_zero in Z. congruence.
    + cbn. repeat split. apply existsb_filter_out.
  - apply count_zero in Hex as Z. rewrite Z. cbn. split; [reflexivity |].
    clear Z. induction (mysql.services_table st) as [| x l IH]; cbn in *; [reflexivity |].
    apply orb_false_iff in Hex as [-> Hex]. cbn. now rewrite IH.
Qed.

Example deleted_service_is_gone :
  let deleted := handlers.DeleteService (GET [] "service-3") seeded_world in
  fst deleted = JSON http.StatusOK (json.H "message" "Service deleted") /\
  fst (handlers.GetService (GET [] "service-3") (snd deleted)) = not_found /\
  fst (handlers.DeleteService (GET [] "service-3") (snd deleted)) = not_found.
Proof. vm_compute. repeat split. Qed.

(** C10 fails on the update path: a [PUT] that repeats the stored name,
    slug and description of an existing service is answered 404 "Service
    not found".  The row is there (a [GET] of the same id is answered 200),
    but MySQL counts as affected the rows an [UPDATE] changes, and the
    connection string does not ask for [clientFoundRows]. *)
Lemma unchanged_update_is_answered_not_found :
  let body := Service.mk "" "Test Service 1" "test-service-1" "First test service"
                         "" "" 0 in
  let c := gin.mkContext [] "service-1" (inr body) in
  existsb (mysql.id_is (settings seeded_world) (gin.Param c))
          (mysql.services_table (db seeded_world)) = true /\
  status_of (fst (handlers.GetService c seeded_world)) = Some http.StatusOK /\
  fst (handlers.UpdateService c seeded_world) = not_found.
Proof. vm_compute. repeat split. Qed.

(** ** Search *)

(** A search without [q], or with an empty one, is answered 400 and leaves
    the world (store, pending faults, log) untouched. *)
Lemma search_requires_query {B : Type} (c : gin.Context B) (w : World) :
  gin.Query c "q" = "" ->
  handlers.SearchServices c w
    = (JSON http.StatusBadRequest (json.H "error" "search query 'q' is required"), w).
Proof.
  intros H. unfold handlers.SearchServices.
  replace (SearchParams.Query (utils.GetSearchParams c)) with (gin.Query c "q")
    by (symmetry; apply (extraction_fields_query c)).
  now rewrite H.
Qed.

(** C7 fails on its second half: a search that matches no service is
    answered 200 with [total = 0], but [data] is JSON [null], not an empty
    array: the accessor returns the nil slice it declared. *)
Lemma search_without_match_has_null_data :
  let answer := fst (handlers.SearchServices (GET [("q", "nonexistent")] "")
                                             seeded_world) in
  answer
    = JSON http.StatusOK
           (json.Object
              [("data", json.Null);
               ("pagination",
                json.of_Pagination (Pagination.mk 1 10 0 0 false false))]) /\
  json.Null <> json.Array [].
Proof. split; [vm_compute; reflexivity | discriminate]. Qed.

(** ** The repository's tests, replayed *)

Example TestCalculatePagination :
  utils.CalculatePagination 1 10 25 = Some (Pagination.mk 1 10 25 3 true false) /\
  utils.CalculatePagination 2 10 25 = Some (Pagination.mk 2 10 25 3 true true) /\
  utils.CalculatePagination 3 10 25 = Some (Pagination.mk 3 10 25 3 false true) /\
  utils.CalculatePagination 1 10 10 = Some (Pagination.mk 1 10 10 1 false false) /\
  utils.CalculatePagination 1 10 0 = Some (Pagination.mk 1 10 0 0 false false).
Proof. repeat split. Qed.

Example TestGetPaginationParams :
  utils.GetPaginationParams (GET [] "") = PaginationParams.mk 1 10 /\
  utils.GetPaginationParams (GET [("page", "2"); ("page_size", "5")] "")
    = PaginationParams.mk 2 5 /\
  utils.GetPaginationParams (GET [("page", "3")] "") = PaginationParams.mk 3 10 /\
  utils.GetPaginationParams (GET [("page_size", "20")] "") = PaginationParams.mk 1 20.
Proof. repeat split. Qed.

Example TestGetSearchParams :
  utils.GetSearchParams (GET [("q", "test"); ("page", "2"); ("page_size", "5")] "")
    = SearchParams.mk "test" 2 5 /\
  utils.GetSearchParams (GET [("q", "notification")] "")
    = SearchParams.mk "notification" 1 10 /\
  utils.GetSearchParams (GET [("q", "")] "") = SearchParams.mk "" 1 10.
Proof. repeat split. Qed.

Example extraction_of_malformed_parameters :
  utils.GetPaginationParams (GET [("page", "abc"); ("page_size", "-5")] "")
    = PaginationParams.mk 1 10 /\
  utils.GetPaginationParams (GET [("page", "0"); ("page_size", "1e3")] "")
    = PaginationParams.mk 1 10 /\
  utils.GetPaginationParams
    (GET [("page", "+7"); ("page_size", "99999999999999999999")] "")
    = PaginationParams.mk 7 10 /\
  utils.GetPaginationParams (GET [("page", "4"); ("page", "9")] "")
    = PaginationParams.mk 4 10.
Proof. repeat split. Qed.

Example TestGetServicesIntegration :
  let items o :=
    match body_of o with
    | Some obj =>
        match json.member "data" obj with
        | Some (json.Array l) => Some (List.length l)
        | _ => None
        end
    | None => None
    end in
  let get q := fst (handlers.GetServices (GET q "") seeded_world) in
  items (get []) = Some 3%nat /\
  items (get [("page", "1"); ("page_size", "2")]) = Some 2%nat /\
  items (get [("page", "2"); ("page_size", "2")]) = Some 1%nat /\
  status_of (get [("page_size", "101")]) = Some http.StatusBadRequest.
Proof. vm_compute. repeat split. Qed.

(** After a commit the deferred [Rollback] finds the transaction finished,
    and the accessor logs that as a rollback error. *)
Example CreateVersion_logs_the_deferred_rollback :
  let version := Version.mk "v-5" "service-2" "0.2.0" "draft" "More work" "" in
  log_lines (snd (database.CreateVersion version seeded_world))
    = ["Error rolling back transaction: sql: transaction has already been committed or rolled back"].
Proof. vm_compute. reflexivity. Qed.

(** ** Witnesses *)


Lemma DeleteService_found_or_not_witness :
  fst (handlers.DeleteService (GET [] "non-existing") seeded_world) = not_found /\
  fst (handlers.DeleteService (GET [] "service-1") seeded_world)
    = JSON http.StatusOK (json.H "message" "Service deleted").
Proof.
  split.
  - apply (DeleteService_found_or_not (GET [] "non-existing") seeded_world eq_refl).
  - apply (DeleteService_found_or_not (GET [] "service-1") seeded_world eq_refl).
Defined.

Lemma search_requires_query_witness :
  handlers.SearchServices (GET [("page", "2")] "") seeded_world
    = (JSON http.StatusBadRequest (json.H "error" "search query 'q' is required"),
       seeded_world).
Proof.
  apply (search_requires_query (GET [("page", "2")] "") seeded_world). reflexivity.
Defined.

Lemma Atoi_Itoa_witness :
  strconv.Atoi (strconv.Itoa (-9223372036854775808)) = Some (-9223372036854775808).
Proof.
  apply (Atoi_Itoa (-9223372036854775808)).
  unfold GoInt.in_range, GoInt.min_int, GoInt.max_int. lia.
Defined.

Lemma extraction_defaults_witness :
  let c := GET [("q", "pay"); ("page", "3"); ("page_size", "-20")] "" in
  PaginationParams.Page (utils.GetPaginationParams c) = 3 /\
  SearchParams.PageSize (utils.GetSearchParams c) = 10.
Proof.
  cbn zeta.
  pose proof (extraction_defaults
                (GET [("q", "pay"); ("page", "3"); ("page_size", "-20")] ""))
    as (_ & _ & _ & _ & _ & Hpage & Hsize).
  split.
  - apply (Hpage 3); [unfold GoInt.in_range, GoInt.min_int, GoInt.max_int; lia |].
    reflexivity.
  - apply (Hsize (-20));
      [unfold GoInt.in_range, GoInt.min_int, GoInt.max_int; lia |].
    reflexivity.
Defined.

(** * Beyond the claims *)

(** ** Configuration *)

Lemma getEnv_not_empty (env : os.Environ) (key defaultValue : string) :
  defaultValue <> "" -> config.getEnv env key defaultValue <> "".
Proof.
  intros H. unfold config.getEnv.
  destruct (String.eqb_spec (os.Getenv env key) ""); cbn [negb]; assumption.
Qed.

(** X19: [config.Load] and [database.getDatabaseDSN] resolve the same
    connection string in every environment (the variable when it is set to
    a non-empty value, the same built-in default otherwise), a variable set
    to the empty string counts as unset, and no field of the loaded
    configuration is ever empty. *)
Theorem configuration_agrees (env : os.Environ) :
  config.DSN (config.Database (config.Load env)) = connection.getDatabaseDSN env /\
  (forall key d, os.Getenv env key = "" -> config.getEnv env key d = d) /\
  (forall key d, os.Getenv env key <> "" -> config.getEnv env key d = os.Getenv env key) /\
  config.Port (config.Load env) <> "" /\
  config.LogLevel (config.Load env) <> "" /\
  config.DSN (config.Database (config.Load env)) <> "".
Proof.
  split; [| split; [| split]].
  - unfold config.Load, config.getEnv, connection.getDatabaseDSN. cbn [config.Database config.DSN].
    now destruct (String.eqb (os.Getenv env "MYSQL_DSN") "").
  - intros key d E. unfold config.getEnv. now rewrite E.
  - intros key d E. unfold config.getEnv.
    now destruct (String.eqb_spec (os.Getenv env key) "").
  - repeat split; apply getEnv_not_empty; discriminate.
Qed.

(** ** Requests that only read *)

Lemma GetServices_only_reads (params : PaginationParams.t) (w : World) :
  only_read w (snd (database.GetServices params w)).
Proof.
  unfold database.GetServices, sql.QueryRow, sql.Query, sql.attempt, bind, ret, only_read.
  destruct w as [st cfg now [| [f |] [| [g |] fs]] ent k lg]; cbn;
    try destruct (mysql.select_services _ _ _); cbn; repeat split.
Qed.

Lemma SearchServices_only_reads (params : SearchParams.t) (w : World) :
  only_read w (snd (database.SearchServices params w)).
Proof.
  unfold database.SearchServices, sql.QueryRow, sql.Query, sql.attempt, bind, ret, only_read.
  destruct w as [st cfg now [| [f |] [| [g |] fs]] ent k lg]; cbn;
    try destruct (mysql.select_search _ _ _ _ _); cbn; repeat split.
Qed.

Lemma GetVersions_only_reads (id : string) (params : PaginationParams.t) (w : World) :
  only_read w (snd (database.GetVersions id params w)).
Proof.
  unfold database.GetVersions, sql.QueryRow, sql.Query, sql.attempt, bind, ret, only_read.
  destruct w as [st cfg now [| [f |] [| [g |] fs]] ent k lg]; cbn;
    try destruct (mysql.select_versions _ _ _ _ _); cbn; repeat split.
Qed.

Lemma only_read_refl (w : World) : only_read w w.
Proof. unfold only_read. repeat split. Qed.

Lemma GetServices_handler_only_reads {B : Type} (c : gin.Context B) (w : World) :
  only_read w (snd (handlers.GetServices c w)).
Proof.
  unfold handlers.GetServices.
  destruct (handlers.validate _ _); [apply only_read_refl |].
  unfold bind at 1.
  pose proof (GetServices_only_reads (utils.GetPaginationParams c) w) as H.
  destruct (database.GetServices _ w) as [[[data total] err] w']. exact H.
Qed.

Lemma SearchServices_handler_only_reads {B : Type} (c : gin.Context B) (w : World) :
  only_read w (snd (handlers.SearchServices c w)).
Proof.
  unfold handlers.SearchServices.
  destruct (String.eqb _ ""); [apply only_read_refl |].
  destruct (handlers.validate _ _); [apply only_read_refl |].
  unfold bind at 1.
  pose proof (SearchServices_only_reads (utils.GetSearchParams c) w) as H.
  destruct (database.SearchServices _ w) as [[[data total] err] w']. exact H.
Qed.

Lemma GetService_handler_only_reads {B : Type} (c : gin.Context B) (w : World) :
  only_read w (snd (handlers.GetService c w)).
Proof.
  unfold handlers.GetService, database.GetServiceByID.
  unfold sql.QueryRow, sql.attempt, bind, ret, only_read.
  destruct w as [st cfg now [| [f |] fs] ent k lg]; cbn;
    try destruct (mysql.select_service _ _ _); cbn; repeat split.
Qed.

Lemma GetVersions_handler_only_reads {B : Type} (c : gin.Context B) (w : World) :
  only_read w (snd (handlers.GetVersions c w)).
Proof.
  unfold handlers.GetVersions.
  destruct (handlers.validate _ _); [apply only_read_refl |].
  unfold bind at 1.
  pose proof (GetVersions_only_reads (gin.Param c) (utils.GetPaginationParams c) w) as H.
  destruct (database.GetVersions _ _ w) as [[[data total] err] w']. exact H.
Qed.

(** X4: the four reading handlers and the health check never change the
    store, whatever the request and whatever the driver does: after any of
    them the tables, the session, the log and the identifier source are as
    before; the health check does not even reach the driver. *)
Theorem reading_handlers_only_read {B : Type} (c : gin.Context B) (w : World) :
  only_read w (snd (handlers.GetServices c w)) /\
  only_read w (snd (handlers.SearchServices c w)) /\
  only_read w (snd (handlers.GetService c w)) /\
  only_read w (snd (handlers.GetVersions c w)) /\
  health.HealthCheck c w = (JSON http.StatusOK (json.H "status" "ok"), w).
Proof.
  split; [apply GetServices_handler_only_reads |].
  split; [apply SearchServices_handler_only_reads |].
  split; [apply GetService_handler_only_reads |].
  split; [apply GetVersions_handler_only_reads | reflexivity].
Qed.

(** ** The single-file server *)

Lemma getPaginationParams_agrees {B : Type} (c : gin.Context B) :
  main.getPaginationParams c = utils.GetPaginationParams c.
Proof. reflexivity. Qed.

Lemma getSearchParams_agrees {B : Type} (c : gin.Context B) :
  main.getSearchParams c = utils.GetSearchParams c.
Proof. reflexivity. Qed.

Lemma respond_agrees (data : json.value) (page pageSize total : Z) :
  main.respond data page pageSize total
    = handlers.paginated page pageSize data total None.
Proof. reflexivity. Qed.

Lemma inline_validation (page pageSize : Z) (rest : IO Outcome) :
  (if page <? 1 then
     ret (JSON http.StatusBadRequest (json.H "error" "page must be greater than 0"))
   else if (pageSize <? 1) || (100 <? pageSize) then
     ret (JSON http.StatusBadRequest
               (json.H "error" "page_size must be between 1 and 100"))
   else rest)
  = match handlers.validate page pageSize with
    | Some rejection => ret rejection
    | None => rest
    end.
Proof.
  unfold handlers.validate.
  destruct (page <? 1); [reflexivity |].
  now destruct ((pageSize <? 1) || (100 <? pageSize)).
Qed.

(** X16: the three list handlers of [cmd/api/main.go] answer every request
    exactly as those of [internal/handlers] do through [internal/database]
    and [pkg/utils], and leave the same world behind: same extraction, same
    checks in the same order, same statements, same envelope. *)
Theorem single_file_lists_agree {B : Type} (c : gin.Context B) (w : World) :
  main.getServices c w = handlers.GetServices c w /\
  main.searchServices c w = handlers.SearchServices c w /\
  main.getVersions c w = handlers.GetVersions c w.
Proof.
  split; [| split].
  - unfold main.getServices, handlers.GetServices.
    rewrite inline_validation, getPaginationParams_agrees.
    destruct (handlers.validate _ _); [reflexivity |].
    unfold database.GetServices, sql.QueryRow, sql.Query, sql.attempt, bind, ret.
    destruct w as [st cfg now [| [f |] [| [g |] fs]] ent k lg]; cbn;
      try destruct (mysql.select_services _ _ _); reflexivity.
  - unfold main.searchServices, handlers.SearchServices.
    rewrite inline_validation, getSearchParams_agrees.
    destruct (String.eqb _ ""); [reflexivity |].
    destruct (handlers.validate _ _); [reflexivity |].
    unfold database.SearchServices, sql.QueryRow, sql.Query, sql.attempt, bind, ret.
    destruct w as [st cfg now [| [f |] [| [g |] fs]] ent k lg]; cbn;
      try destruct (mysql.select_search _ _ _ _ _); reflexivity.
  - unfold main.getVersions, handlers.GetVersions.
    rewrite inline_validation, getPaginationParams_agrees.
    destruct (handlers.validate _ _); [reflexivity |].
    unfold database.GetVersions, sql.QueryRow, sql.Query, sql.attempt, bind, ret.
    destruct w as [st cfg now [| [f |] [| [g |] fs]] ent k lg]; cbn;
      try destruct (mysql.select_versions _ _ _ _ _); reflexivity.
Qed.

(** X17: so do its handlers of a single service, the health check and its
    three helpers. *)
Theorem single_file_services_agree
        {B : Type} (g : gin.Context B) (c : gin.Context Service.t) (w : World) :
  main.createService c w = handlers.CreateService c w /\
  main.getService g w = handlers.GetService g w /\
  main.updateService c w = handlers.UpdateService c w /\
  main.deleteService g w = handlers.DeleteService g w /\
  main.healthCheck g w = health.HealthCheck g w /\
  main.getPaginationParams g = utils.GetPaginationParams g /\
  main.getSearchParams g = utils.GetSearchParams g /\
  (forall page pageSize total,
     main.calculatePagination page pageSize total
       = utils.CalculatePagination page pageSize total).
Proof.
  split; [| split; [| split; [| split]]].
  - unfold main.createService, handlers.CreateService, database.CreateService.
    destruct (gin.ShouldBindJSON c) as [msg | body]; [reflexivity |].
    unfold uuid.New, sql.Exec, sql.attempt, bind, ret.
    destruct w as [st cfg now [| [f |] fs] ent k lg]; cbn;
      try destruct (mysql.insert_service _ _ _ _ _ _ _) as [? | [? ?]]; reflexivity.
  - unfold main.getService, handlers.GetService, database.GetServiceByID.
    unfold sql.QueryRow, sql.attempt, bind, ret.
    destruct w as [st cfg now [| [f |] fs] ent k lg]; cbn;
      try destruct (mysql.select_service _ _ _); reflexivity.
  - unfold main.updateService, handlers.UpdateService, database.UpdateService.
    destruct (gin.ShouldBindJSON c) as [msg | body]; [reflexivity |].
    unfold sql.Exec, sql.attempt, bind, ret.
    destruct w as [st cfg now [| [f |] fs] ent k lg]; cbn;
      try destruct (mysql.update_service _ _ _ _ _ _ _) as [? | [? ?]]; reflexivity.
  - unfold main.deleteService, handlers.DeleteService, database.DeleteService.
    unfold sql.Exec, sql.attempt, bind, ret.
    destruct w as [st cfg now [| [f |] fs] ent k lg]; reflexivity.
  - repeat split.
Qed.

Opaque mysql.execute.

(** X18: and so does its version creation, which runs the transaction in
    the handler: same answer (the 500 of whichever step failed, or the 201),
    same committed store, same line logged by the deferred rollback. *)
Theorem single_file_createVersion_agrees (c : gin.Context Version.t) (w : World) :
  main.createVersion c w = handlers.CreateVersion c w.
Proof.
  unfold main.createVersion, handlers.CreateVersion.
  destruct (gin.ShouldBindJSON c) as [msg | body]; [reflexivity |].
  unfold database.CreateVersion, main.createVersion_body, database.CreateVersion_body.
  unfold uuid.New, sql.Begin, sql.Tx_Exec, sql.Commit, sql.Rollback, sql.attempt,
    log.Printf, bind, ret.
  destruct w as [st cfg now fs ent k lg]. cbn.
  destruct fs as [| [f1 |] fs]; cbn; try reflexivity.
  - destruct (mysql.execute cfg now (mysql.INSERT_INTO_versions _ _ _ _ _) st)
      as [e1 | [st1 n1]]; cbn; [reflexivity |].
    destruct (mysql.execute cfg now (mysql.UPDATE_services_versions_count _) st1)
      as [e2 | [st2 n2]]; reflexivity.
  - destruct fs as [| [f2 |] fs]; cbn.
    + destruct (mysql.execute cfg now (mysql.INSERT_INTO_versions _ _ _ _ _) st)
        as [e1 | [st1 n1]]; cbn; [reflexivity |].
      destruct (mysql.execute cfg now (mysql.UPDATE_services_versions_count _) st1)
        as [e2 | [st2 n2]]; reflexivity.
    + destruct fs as [| [f3 |] fs]; reflexivity.
    + destruct (mysql.execute cfg now (mysql.INSERT_INTO_versions _ _ _ _ _) st)
        as [e1 | [st1 n1]]; cbn.
      { destruct fs as [| [f3 |] fs]; reflexivity. }
      destruct fs as [| [f3 |] fs]; cbn.
      * destruct (mysql.execute cfg now (mysql.UPDATE_services_versions_count _) st1)
          as [e2 | [st2 n2]]; reflexivity.
      * destruct fs as [| [f4 |] fs]; reflexivity.
      * destruct (mysql.execute cfg now (mysql.UPDATE_services_versions_count _) st1)
          as [e2 | [st2 n2]]; cbn.
        { destruct fs as [| [f4 |] fs]; reflexivity. }
        destruct fs as [| [f4 |] fs]; reflexivity.
Qed.

Transparent mysql.execute.

(** ** Requests that do not succeed *)


Lemma filter_out_none {A} (p : A -> bool) (l : list A) :
  existsb p l = false -> filter (fun x => negb (p x)) l = l.
Proof.
  induction l as [| x l IH]; cbn; [reflexivity |].
  destruct (p x); cbn; [discriminate |]. intros H. now rewrite IH.
Qed.


(** So has a [DELETE]. *)
Lemma delete_service_nothing cfg id st st' :
  mysql.delete_service cfg id st = inr (st', 0) -> st' = st.
Proof.
  unfold mysql.delete_service. intros [= <- E]. rewrite E.
  rewrite andb_false_r. apply count_zero in E.
  rewrite filter_out_none by exact E. now destruct st.
Qed.

(** The two ways a statement sent with [DB.Exec] ends. *)
Lemma Exec_cases (s : mysql.Statement) (w : World) :
  settings (snd (sql.Exec s w)) = settings w /\
  ((exists e, fst (sql.Exec s w) = inl e /\ db (snd (sql.Exec s w)) = db w) \/
   (exists st n,
      mysql.execute (settings w) (clock w) s (db w) = inr (st, n) /\
      fst (sql.Exec s w) = inr n /\ db (snd (sql.Exec s w)) = st)).
Proof.
  unfold sql.Exec, sql.attempt, bind, ret.
  destruct w as [st cfg now [| [f |] fs] ent k lg]; cbn.
  - destruct (mysql.execute cfg now s st) as [e | [st' n]]; cbn;
      (split; [reflexivity |]); [left | right]; eauto.
  - split; [reflexivity |]. left. eauto.
  - destruct (mysql.execute cfg now s st) as [e | [st' n]]; cbn;
      (split; [reflexivity |]); [left | right]; eauto.
Qed.



(** X6: a body that does not bind is answered 400 with the binding error
    as text, by each of the three handlers that read one, and nothing else
    happens: no identifier is drawn, no statement reaches the driver, the
    world is the same. *)
Theorem malformed_body_is_rejected
        (cs : gin.Context Service.t) (cv : gin.Context Version.t)
        (msg : string) (w : World) :
  (gin.ShouldBindJSON cs = inl msg ->
   handlers.CreateService cs w
     = (JSON http.StatusBadRequest (json.H "error" msg), w) /\
   handlers.UpdateService cs w
     = (JSON http.StatusBadRequest (json.H "error" msg), w)) /\
  (gin.ShouldBindJSON cv = inl msg ->
   handlers.CreateVersion cv w
     = (JSON http.StatusBadRequest (json.H "error" msg), w)).
Proof.
  unfold handlers.CreateService, handlers.UpdateService, handlers.CreateVersion.
  split; intros ->; auto.
Qed.

Lemma malformed_body_is_rejected_witness :
  handlers.CreateVersion (gin.mkContext [] "service-1" (inl "EOF")) seeded_world
    = (JSON 400 (json.H "error" "EOF"), seeded_world).
Proof.
  destruct (malformed_body_is_rejected
              (gin.mkContext [] "" (inl "EOF"))
              (gin.mkContext [] "service-1" (inl "EOF")) "EOF" seeded_world) as [_ H].
  apply H. reflexivity.
Defined.

(** X7: when the driver call a handler makes first fails (the connection
    is lost, the server is gone), the handler answers 500 with the driver's
    message as it is; for the three list handlers, so does a failure of the
    second call, the query of the page after the count. *)
Theorem driver_failure_is_answered_500
        {B : Type} (g : gin.Context B) (cs : gin.Context Service.t)
        (cv : gin.Context Version.t) (msg : string) (pending : list (option string))
        (w : World) :
  faults w = Some msg :: pending \/ faults w = None :: Some msg :: pending ->
  let failure := JSON http.StatusInternalServerError (json.H "error" msg) in
  (handlers.validate (PaginationParams.Page (utils.GetPaginationParams g))
                     (PaginationParams.PageSize (utils.GetPaginationParams g)) = None ->
   fst (handlers.GetServices g w) = failure /\
   fst (handlers.GetVersions g w) = failure /\
   (gin.Query g "q" <> "" -> fst (handlers.SearchServices g w) = failure)) /\
  (faults w = Some msg :: pending ->
   fst (handlers.GetService g w) = failure /\
   fst (handlers.DeleteService g w) = failure /\
   (forall body, gin.ShouldBindJSON cs = inr body ->
      fst (handlers.CreateService cs w) = failure /\
      fst (handlers.UpdateService cs w) = failure) /\
   (forall body, gin.ShouldBindJSON cv = inr body ->
      fst (handlers.CreateVersion cv w) = failure)).
Proof.
  intros F failure. split.
  - intros V.
    destruct (search_params_agree g) as [Ep Es].
    assert (Q : SearchParams.Query (utils.GetSearchParams g) = gin.Query g "q")
      by (rewrite GetSearchParams_fields; reflexivity).
    unfold handlers.GetServices, handlers.GetVersions, handlers.SearchServices.
    rewrite Ep, Es, Q, V.
    unfold database.GetServices, database.GetVersions, database.SearchServices.
    unfold sql.QueryRow, sql.Query, sql.attempt, bind, ret.
    destruct w as [st cfg now fs ent k lg]. cbn in F.
    destruct F as [-> | ->]; cbn; (split; [reflexivity |]); (split; [reflexivity |]);
      intros N; apply String.eqb_neq in N; rewrite N; reflexivity.
  - intros F1.
    unfold handlers.GetService, handlers.DeleteService, handlers.CreateService,
      handlers.UpdateService, handlers.CreateVersion.
    unfold database.GetServiceByID, database.DeleteService, database.CreateService,
      database.UpdateService, database.CreateVersion.
    unfold uuid.New, sql.QueryRow, sql.Exec, sql.Begin, sql.attempt, bind, ret.
    destruct w as [st cfg now fs ent k lg]. cbn in F1. subst fs. cbn.
    split; [reflexivity |]. split; [reflexivity |].
    split; intros body ->; cbn; auto.
Qed.

Lemma driver_failure_is_answered_500_witness :
  fst (handlers.GetService (GET [] "service-1")
         (set_faults [Some "invalid connection"] seeded_world))
    = JSON 500 (json.H "error" "invalid connection").
Proof.
  destruct (driver_failure_is_answered_500
              (GET [] "service-1") (gin.mkContext [] "" (inl "EOF"))
              (gin.mkContext [] "" (inl "EOF")) "invalid connection" []
              (set_faults [Some "invalid connection"] seeded_world)
              (or_introl eq_refl)) as [_ H].
  apply H. reflexivity.
Defined.

(** ** What a body cannot choose *)

(** X8: the id of a created service or version is the one the server
    draws, and the service of a version is the one of the path.  Two create
    requests whose bodies agree on the fields the statement writes ([name],
    [slug], [description]; for a version [semver], [status], [changelog],
    under the same path id) leave the same world behind and get the same
    status, whatever [id], [service_id], [created_at], [updated_at] or
    [versions_count] the bodies carry; the same holds for two updates of
    the same path id. *)
Theorem body_ids_are_ignored (w : World) :
  (forall (c1 c2 : gin.Context Service.t) (b1 b2 : Service.t),
     gin.ShouldBindJSON c1 = inr b1 -> gin.ShouldBindJSON c2 = inr b2 ->
     Service.Name b1 = Service.Name b2 ->
     Service.Slug b1 = Service.Slug b2 ->
     Service.Description b1 = Service.Description b2 ->
     (snd (handlers.CreateService c1 w) = snd (handlers.CreateService c2 w) /\
      status_of (fst (handlers.CreateService c1 w))
        = status_of (fst (handlers.CreateService c2 w))) /\
     (gin.Param c1 = gin.Param c2 ->
      snd (handlers.UpdateService c1 w) = snd (handlers.UpdateService c2 w) /\
      status_of (fst (handlers.UpdateService c1 w))
        = status_of (fst (handlers.UpdateService c2 w)))) /\
  (forall (c1 c2 : gin.Context Version.t) (b1 b2 : Version.t),
     gin.ShouldBindJSON c1 = inr b1 -> gin.ShouldBindJSON c2 = inr b2 ->
     gin.Param c1 = gin.Param c2 ->
     Version.Semver b1 = Version.Semver b2 ->
     Version.Status b1 = Version.Status b2 ->
     Version.Changelog b1 = Version.Changelog b2 ->
     snd (handlers.CreateVersion c1 w) = snd (handlers.CreateVersion c2 w) /\
     status_of (fst (handlers.CreateVersion c1 w))
       = status_of (fst (handlers.CreateVersion c2 w))).
Proof.
  split.
  - intros c1 c2 b1 b2 E1 E2 Hn Hs Hd. split.
    + unfold handlers.CreateService, database.CreateService. rewrite E1, E2.
      unfold uuid.New, sql.Exec, sql.attempt, bind, ret.
      destruct w as [st cfg now [| [f |] fs] ent k lg]; cbn; rewrite ?Hn, ?Hs, ?Hd;
        try destruct (mysql.insert_service _ _ _ _ _ _ _) as [? | [? ?]]; cbn; auto.
    + intros Hp.
      unfold handlers.UpdateService, database.UpdateService. rewrite E1, E2, Hp.
      unfold sql.Exec, sql.attempt, bind, ret.
      destruct w as [st cfg now [| [f |] fs] ent k lg]; cbn; rewrite ?Hn, ?Hs, ?Hd;
        try destruct (mysql.update_service _ _ _ _ _ _ _) as [? | [? n]]; cbn; auto;
        destruct (n =? 0); cbn; auto.
  - intros c1 c2 b1 b2 E1 E2 Hp Hv Hs Hc.
    unfold handlers.CreateVersion. rewrite E1, E2, Hp.
    unfold bind at 1 3 5 7. unfold uuid.New.
    set (w1 := set_drawn _ w).
    set (u := uuid.String_ _).
    assert (V : forall v1 v2 : Version.t,
               Version.ID v1 = Version.ID v2 ->
               Version.ServiceID v1 = Version.ServiceID v2 ->
               Version.Semver v1 = Version.Semver v2 ->
               Version.Status v1 = Version.Status v2 ->
               Version.Changelog v1 = Version.Changelog v2 ->
               database.CreateVersion v1 w1 = database.CreateVersion v2 w1).
    { intros v1 v2 Hi Hsv Hse Hst Hch.
      unfold database.CreateVersion, database.CreateVersion_body.
      now rewrite Hi, Hsv, Hse, Hst, Hch. }
    unfold bind.
    rewrite (V (handlers.with_IDs b1 u (gin.Param c2))
               (handlers.with_IDs b2 u (gin.Param c2))) by (cbn; auto).
    destruct (database.CreateVersion _ w1) as [[e |] w2]; cbn; auto.
Qed.

Lemma body_ids_are_ignored_witness :
  let plain := Service.mk "" "Maps" "maps" "Map tiles" "" "" 0 in
  let forged := Service.mk "service-1" "Maps" "maps" "Map tiles" "1999" "1999" 7 in
  snd (handlers.CreateService (gin.mkContext [] "" (inr forged)) seeded_world)
    = snd (handlers.CreateService (gin.mkContext [] "" (inr plain)) seeded_world).
Proof.
  cbn zeta.
  destruct (body_ids_are_ignored seeded_world) as [H _].
  apply (H (gin.mkContext [] "" (inr (Service.mk "service-1" "Maps" "maps" "Map tiles"
                                                 "1999" "1999" 7)))
           (gin.mkContext [] "" (inr (Service.mk "" "Maps" "maps" "Map tiles" "" "" 0)))
           _ _ eq_refl eq_refl eq_refl eq_refl eq_refl).
Defined.

(** ** The version counter *)

Lemma coll_eqb_sym cfg (a b : string) : mysql.coll_eqb cfg a b = mysql.coll_eqb cfg b a.
Proof. unfold mysql.coll_eqb. apply String.eqb_sym. Qed.

Lemma coll_eqb_trans cfg (a b c : string) :
  mysql.coll_eqb cfg a b = true -> mysql.coll_eqb cfg b c = true ->
  mysql.coll_eqb cfg a c = true.
Proof.
  unfold mysql.coll_eqb. intros H1 H2.
  apply String.eqb_eq in H1, H2. apply String.eqb_eq. congruence.
Qed.

Lemma count_app {A} (p : A -> bool) (l l' : list A) :
  mysql.count p (l ++ l') = mysql.count p l + mysql.count p l'.
Proof.
  unfold mysql.count. rewrite filter_app, length_app. lia.
Qed.

Lemma count_ext {A} (p q : A -> bool) (l : list A) :
  (forall x, In x l -> p x = q x) -> mysql.count p l = mysql.count q l.
Proof.
  intros H. unfold mysql.count. f_equal. f_equal. now apply filter_ext_in.
Qed.

Lemma count_filter {A} (p q : A -> bool) (l : list A) :
  (forall x, In x l -> p x = true -> q x = true) ->
  mysql.count p (filter q l) = mysql.count p l.
Proof.
  intros H. unfold mysql.count. f_equal. f_equal.
  induction l as [| x l IH]; cbn; [reflexivity |].
  assert (IH' := IH (fun y Hy => H y (or_intror Hy))).
  destruct (q x) eqn:Q; cbn.
  - now rewrite IH'.
  - destruct (p x) eqn:P; [| exact IH'].
    rewrite (H x (or_introl eq_refl) P) in Q. discriminate.
Qed.

Lemma existsb_id_map cfg (f : mysql.services.row -> mysql.services.row)
      (x : string) (rows : list mysql.services.row) :
  (forall r, mysql.services.id (f r) = mysql.services.id r) ->
  existsb (mysql.id_is cfg x) (map f rows) = existsb (mysql.id_is cfg x) rows.
Proof.
  intros H. induction rows as [| r rows IH]; cbn; [reflexivity |].
  rewrite IH. unfold mysql.id_is at 1 3. now rewrite H.
Qed.

Lemma forallb_of_map {A C} (f : A -> C) (p : C -> bool) (l : list A) :
  forallb p (map f l) = forallb (fun x => p (f x)) l.
Proof. induction l as [| x l IH]; cbn; [reflexivity | now rewrite IH]. Qed.

Lemma forallb_same {A} (p q : A -> bool) (l : list A) :
  (forall x, p x = q x) -> forallb p l = forallb q l.
Proof.
  intros H. induction l as [| x l IH]; cbn; [reflexivity | now rewrite H, IH].
Qed.

(** Rewriting rows without touching their id or their counter keeps the
    store consistent, whatever else it changes in them. *)
Lemma consistent_map cfg (f : mysql.services.row -> mysql.services.row)
      (rows : list mysql.services.row) (vs : list mysql.versions.row) :
  (forall r, mysql.services.id (f r) = mysql.services.id r /\
             mysql.services.versions_count (f r) = mysql.services.versions_count r) ->
  counts_consistent cfg (mysql.mkStore (map f rows) vs)
    = counts_consistent cfg (mysql.mkStore rows vs) /\
  referenced cfg (mysql.mkStore (map f rows) vs)
    = referenced cfg (mysql.mkStore rows vs).
Proof.
  intros H. unfold counts_consistent, referenced, counted.
  cbn [mysql.services_table mysql.versions_table]. split.
  - rewrite forallb_of_map. apply forallb_same. intros r.
    destruct (H r) as [-> ->]. reflexivity.
  - apply forallb_same. intros v. apply existsb_id_map. intros r. apply H.
Qed.

Lemma bump_if_id cfg now sid (r : mysql.services.row) :
  mysql.services.id (if mysql.id_is cfg sid r then mysql.bump now r else r)
    = mysql.services.id r.
Proof. now destruct (mysql.id_is cfg sid r). Qed.

(** Once both writes of a version creation are in, the services count
    their versions right if they did before. *)
Lemma counted_after_both_writes cfg now (v : mysql.versions.row)
      (rows : list mysql.services.row) (vs : list mysql.versions.row) :
  counts_consistent cfg (mysql.mkStore rows vs) = true ->
  counts_consistent cfg
    (mysql.mkStore
       (map (fun r => if mysql.id_is cfg (mysql.versions.service_id v) r
                      then mysql.bump now r else r) rows)
       (vs ++ [v])) = true.
Proof.
  unfold counts_consistent, counted.
  cbn [mysql.services_table mysql.versions_table].
  rewrite forallb_of_map, !forallb_forall. intros H r Hr.
  specialize (H r Hr). apply Z.eqb_eq in H. apply Z.eqb_eq.
  rewrite bump_if_id, count_app, <- H.
  unfold mysql.count at 1. cbn [filter]. unfold mysql.of_service at 1.
  rewrite coll_eqb_sym. unfold mysql.id_is.
  destruct (mysql.coll_eqb cfg (mysql.services.id r) (mysql.versions.service_id v));
    cbn; lia.
Qed.

Lemma referenced_after_both_writes cfg now (v : mysql.versions.row)
      (rows : list mysql.services.row) (vs : list mysql.versions.row) :
  existsb (mysql.id_is cfg (mysql.versions.service_id v)) rows = true ->
  referenced cfg (mysql.mkStore rows vs) = true ->
  referenced cfg
    (mysql.mkStore
       (map (fun r => if mysql.id_is cfg (mysql.versions.service_id v) r
                      then mysql.bump now r else r) rows)
       (vs ++ [v])) = true.
Proof.
  unfold referenced. cbn [mysql.services_table mysql.versions_table].
  intros Hv H. rewrite forallb_app. cbn [forallb].
  rewrite !existsb_id_map by (intros; apply bump_if_id).
  rewrite Hv, andb_true_r.
  erewrite forallb_same; [exact H |].
  intros x. apply existsb_id_map. intros. apply bump_if_id.
Qed.

Lemma insert_version_checked cfg now id service_id semver status changelog st st' n :
  mysql.foreign_key_checks cfg = true ->
  mysql.insert_version cfg now id service_id semver status changelog st
    = inr (st', n) ->
  existsb (mysql.id_is cfg service_id) (mysql.services_table st) = true.
Proof.
  intros FK. unfold mysql.insert_version. rewrite FK.
  destruct (existsb _ (mysql.versions_table st)); [discriminate |].
  destruct (existsb (mysql.id_is cfg service_id) _); [reflexivity | discriminate].
Qed.

Lemma CreateVersion_settings (version : Version.t) (w : World) :
  settings (snd (database.CreateVersion version w)) = settings w.
Proof.
  unfold database.CreateVersion, database.CreateVersion_body.
  unfold sql.Begin, sql.Tx_Exec, sql.Commit, sql.Rollback, sql.attempt, log.Printf.
  unfold bind, ret.
  destruct w as [st cfg now fs ent k lg]. cbn.
  destruct fs as [| [f1 |] [| [f2 |] [| [f3 |] [| [f4 |] [| [f5 |] fs]]]]]; cbn;
    try reflexivity;
    destruct (mysql.insert_version _ _ _ _ _ _ _ _) as [e1 | [st1 n1]]; cbn;
    try reflexivity;
    destruct (mysql.update_versions_count _ _ _ _) as [e2 | [st2 n2]]; cbn;
    reflexivity.
Qed.

(** What [CreateVersion] keeps of the store's consistency. *)
Lemma CreateVersion_keeps (version : Version.t) (w : World) :
  let w' := snd (database.CreateVersion version w) in
  (counts_consistent (settings w) (db w) = true ->
   counts_consistent (settings w) (db w') = true) /\
  (mysql.foreign_key_checks (settings w) = true ->
   referenced (settings w) (db w) = true ->
   referenced (settings w) (db w') = true).
Proof.
  cbn zeta.
  destruct (CreateVersion_cases version w)
    as [(_ & st1 & st2 & n1 & n2 & E1 & E2 & ->) | (e & _ & ->)]; [| auto].
  pose proof (both_writes _ _ _ _ _ _ _ _ E1 E2) as [V S].
  destruct st2 as [rows2 vs2]. cbn [mysql.services_table mysql.versions_table] in V, S.
  subst rows2 vs2. destruct (db w) as [rows vs] eqn:D.
  cbn [mysql.services_table mysql.versions_table]. split.
  - apply (counted_after_both_writes (settings w) (clock w)
             (mysql.versions.mk (Version.ID version) (Version.ServiceID version)
                (Version.Semver version) (Version.Status version)
                (Version.Changelog version) (clock w))).
  - intros FK. cbn [mysql.execute] in E1.
    apply (insert_version_checked _ _ _ _ _ _ _ _ _ _ FK) in E1.
    cbn [mysql.services_table] in E1.
    now apply (referenced_after_both_writes (settings w) (clock w)
                 (mysql.versions.mk (Version.ID version) (Version.ServiceID version)
                    (Version.Semver version) (Version.Status version)
                    (Version.Changelog version) (clock w))).
Qed.

Lemma handlers_CreateVersion_keeps (c : gin.Context Version.t) (w : World) :
  let w' := snd (handlers.CreateVersion c w) in
  settings w' = settings w /\
  (counts_consistent (settings w) (db w) = true ->
   counts_consistent (settings w) (db w') = true) /\
  (mysql.foreign_key_checks (settings w) = true ->
   referenced (settings w) (db w) = true ->
   referenced (settings w) (db w') = true).
Proof.
  cbn zeta. unfold handlers.CreateVersion.
  destruct (gin.ShouldBindJSON c) as [msg | body]; [cbn; auto |].
  unfold uuid.New, bind, ret. cbv zeta.
  set (version := handlers.with_IDs _ _ _).
  set (w1 := set_drawn _ w).
  pose proof (CreateVersion_keeps version w1) as K.
  pose proof (CreateVersion_settings version w1) as S.
  destruct (database.CreateVersion version w1) as [[e |] w2]; cbn [fst snd] in *;
    (split; [exact S | exact K]).
Qed.

(** X9: creating a version keeps the counters right.  If before the
    request every service row counts exactly the versions stored for its id,
    it does so after it, whether the request succeeded, was refused or
    failed at any step, and whether or not the session enforces the foreign
    key; and in a session that enforces it, every version still belongs to
    a stored service. *)
Theorem CreateVersion_keeps_the_count (c : gin.Context Version.t) (w : World) :
  counts_consistent (settings w) (db w) = true ->
  counts_consistent (settings w) (db (snd (handlers.CreateVersion c w))) = true /\
  (mysql.foreign_key_checks (settings w) = true ->
   referenced (settings w) (db w) = true ->
   referenced (settings w) (db (snd (handlers.CreateVersion c w))) = true).
Proof.
  intros H. destruct (handlers_CreateVersion_keeps c w) as (_ & K & R). auto.
Qed.

Lemma CreateVersion_keeps_the_count_witness :
  counts_consistent sample_settings
    (db (snd (handlers.CreateVersion
                (gin.mkContext [] "service-2"
                   (inr (Version.mk "" "" "0.2.0" "draft" "More work" "")))
                unchecked_world))) = true.
Proof.
  destruct (CreateVersion_keeps_the_count
              (gin.mkContext [] "service-2"
                 (inr (Version.mk "" "" "0.2.0" "draft" "More work" "")))
              unchecked_world) as [H _]; [vm_compute; reflexivity | exact H].
Defined.

(** ** Consistency of the store, request after request *)

Lemma insert_service_consistent cfg now id name slug description st st' n :
  mysql.insert_service cfg now id name slug description st = inr (st', n) ->
  consistent cfg st = true -> consistent cfg st' = true.
Proof.
  intros E. apply insert_service_accepted in E as [Fresh ->].
  unfold consistent, counts_consistent, referenced, counted.
  cbn [mysql.services_table mysql.versions_table].
  intros H. apply andb_true_iff in H as [C R]. apply andb_true_iff. split.
  - rewrite forallb_app, C. cbn [forallb mysql.services.versions_count mysql.services.id andb].
    rewrite andb_true_r. apply Z.eqb_eq. symmetry. apply count_zero.
    destruct (existsb _ (mysql.versions_table st)) eqn:X; [| reflexivity].
    apply existsb_exists in X as (v & Hv & Ev).
    rewrite forallb_forall in R. specialize (R v Hv).
    apply existsb_exists in R as (r & Hr & Er).
    assert (existsb (mysql.id_is cfg id) (mysql.services_table st) = true).
    { apply existsb_exists. exists r. split; [exact Hr |].
      unfold mysql.id_is in *. unfold mysql.of_service in Ev.
      eapply coll_eqb_trans; eassumption. }
    congruence.
  - rewrite forallb_forall in *. intros v Hv.
    rewrite existsb_app, (R v Hv). reflexivity.
Qed.

Lemma update_service_consistent cfg now name slug description id st st' n :
  mysql.update_service cfg now name slug description id st = inr (st', n) ->
  consistent cfg st = true -> consistent cfg st' = true.
Proof.
  unfold mysql.update_service.
  destruct (existsb _ _); [discriminate |].
  destruct (existsb _ _); [discriminate |].
  intros [= <- _]. unfold consistent.
  match goal with
  | |- context [map ?f _] =>
      destruct (consistent_map cfg f (mysql.services_table st) (mysql.versions_table st))
        as [-> ->]
  end.
  - intros r. destruct (mysql.id_is cfg id r && _); cbn; auto.
  - now destruct st.
Qed.

Lemma delete_service_consistent cfg id st st' n :
  mysql.foreign_key_checks cfg = true ->
  mysql.delete_service cfg id st = inr (st', n) ->
  consistent cfg st = true -> consistent cfg st' = true.
Proof.
  intros FK E.
  destruct (Z.eqb_spec n 0) as [-> | N].
  { apply delete_service_nothing in E. now subst. }
  revert E. unfold mysql.delete_service. rewrite FK. cbn [andb].
  intros [= <- E]. rewrite E.
  assert (0 <= n) by (subst n; unfold mysql.count; lia).
  destruct (Z.ltb_spec 0 n) as [_ | ?]; [| lia].
  unfold consistent, counts_consistent, referenced, counted.
  cbn [mysql.services_table mysql.versions_table].
  intros H'. apply andb_true_iff in H' as [C R]. apply andb_true_iff.
  rewrite forallb_forall in C, R. split; apply forallb_forall.
  - intros r Hr. apply filter_In in Hr as [Hr Out].
    apply negb_true_iff in Out. specialize (C r Hr).
    apply Z.eqb_eq in C. apply Z.eqb_eq. rewrite C. symmetry.
    apply count_filter. intros v _ Ev.
    apply negb_true_iff. unfold mysql.of_service in Ev. unfold mysql.id_is in Out.
    destruct (mysql.coll_eqb cfg (mysql.versions.service_id v) id) eqn:X;
      [| reflexivity].
    rewrite coll_eqb_sym in Ev.
    rewrite (coll_eqb_trans cfg _ _ _ Ev X) in Out. discriminate.
  - intros v Hv. apply filter_In in Hv as [Hv Out].
    apply negb_true_iff in Out. specialize (R v Hv).
    apply existsb_exists in R as (r & Hr & Er).
    apply existsb_exists. exists r. split; [| exact Er].
    apply filter_In. split; [exact Hr |]. apply negb_true_iff.
    unfold mysql.id_is in *.
    destruct (mysql.coll_eqb cfg (mysql.services.id r) id) eqn:X; [| reflexivity].
    rewrite coll_eqb_sym in Er.
    rewrite (coll_eqb_trans cfg _ _ _ Er X) in Out. discriminate.
Qed.

Lemma execute_consistent cfg now (s : mysql.Statement) st st' n :
  mysql.foreign_key_checks cfg = true ->
  (forall sid, s <> mysql.UPDATE_services_versions_count sid) ->
  (forall a b c d e, s <> mysql.INSERT_INTO_versions a b c d e) ->
  mysql.execute cfg now s st = inr (st', n) ->
  consistent cfg st = true -> consistent cfg st' = true.
Proof.
  intros FK N1 N2. destruct s; cbn [mysql.execute].
  - apply insert_service_consistent.
  - apply update_service_consistent.
  - now apply delete_service_consistent.
  - now destruct (N2 id service_id semver status changelog).
  - now destruct (N1 service_id).
Qed.

(** A single statement sent with [DB.Exec], other than the two of the
    version transaction, keeps the store consistent. *)
Lemma Exec_keeps (s : mysql.Statement) (w : World) :
  mysql.foreign_key_checks (settings w) = true ->
  (forall sid, s <> mysql.UPDATE_services_versions_count sid) ->
  (forall a b c d e, s <> mysql.INSERT_INTO_versions a b c d e) ->
  consistent (settings w) (db w) = true ->
  consistent (settings w) (db (snd (sql.Exec s w))) = true.
Proof.
  intros FK N1 N2 H.
  destruct (Exec_cases s w) as [_ [(e & _ & ->) | (st & n & X & _ & ->)]];
    [exact H |].
  eapply execute_consistent; eassumption.
Qed.

Lemma serve_keeps (r : router.Request) (w : World) :
  mysql.foreign_key_checks (settings w) = true ->
  consistent (settings w) (db w) = true ->
  settings (snd (router.serve r w)) = settings w /\
  consistent (settings w) (db (snd (router.serve r w))) = true.
Proof.
  intros FK H.
  assert (Read : forall w', only_read w w' ->
                   settings w' = settings w /\ consistent (settings w) (db w') = true).
  { intros w' (-> & -> & _). auto. }
  destruct r as [c | c | c | c | c | c | c | c | c]; cbn [router.serve].
  - auto.
  - apply Read.
    now destruct (GetServices_handler_only_reads c w).
  - apply Read. now destruct (SearchServices_handler_only_reads c w).
  - unfold handlers.CreateService, database.CreateService.
    destruct (gin.ShouldBindJSON c) as [msg | body]; [cbn; auto |].
    unfold uuid.New, bind, ret. cbv zeta.
    set (service := handlers.with_ID _ _).
    set (w1 := set_drawn _ w).
    set (s := mysql.INSERT_INTO_services _ _ _ _).
    pose proof (Exec_keeps s w1 FK) as K.
    destruct (Exec_cases s w1) as [S _].
    destruct (sql.Exec s w1) as [[e | n] w2]; cbn [fst snd] in *;
      (split; [exact S |]); apply K; try discriminate; exact H.
  - apply Read. now destruct (GetService_handler_only_reads c w).
  - unfold handlers.UpdateService, database.UpdateService.
    destruct (gin.ShouldBindJSON c) as [msg | body]; [cbn; auto |].
    unfold bind, ret.
    set (s := mysql.UPDATE_services_SET _ _ _ _).
    pose proof (Exec_keeps s w FK) as K.
    destruct (Exec_cases s w) as [S _].
    destruct (sql.Exec s w) as [[e | n] w2]; cbn [fst snd] in *;
      [| destruct (n =? 0)]; cbn [fst snd];
      (split; [exact S |]); apply K; try discriminate; exact H.
  - unfold handlers.DeleteService, database.DeleteService.
    unfold bind, ret.
    set (s := mysql.DELETE_FROM_services _).
    pose proof (Exec_keeps s w FK) as K.
    destruct (Exec_cases s w) as [S _].
    destruct (sql.Exec s w) as [[e | n] w2]; cbn [fst snd] in *;
      [| destruct (n =? 0)]; cbn [fst snd];
      (split; [exact S |]); apply K; try discriminate; exact H.
  - apply Read. now destruct (GetVersions_handler_only_reads c w).
  - destruct (handlers_CreateVersion_keeps c w) as (S & C & R).
    split; [exact S |].
    unfold consistent in *. apply andb_true_iff in H as [HC HR].
    apply andb_true_iff. auto.
Qed.

(** X10: in a session that enforces the foreign key, the store stays
    consistent under any sequence of requests to any routes, with any
    contexts and bodies, and whatever driver failures occur on the way: if
    every service row counts exactly the versions stored for its id, and
    every version row belongs to a stored service, then the same holds
    after the whole sequence has been served. *)
Theorem consistency_is_invariant (requests : list router.Request) (w : World) :
  mysql.foreign_key_checks (settings w) = true ->
  consistent (settings w) (db w) = true ->
  consistent (settings w) (db (router.serve_all requests w)) = true.
Proof.
  revert w. induction requests as [| r rest IH]; intros w FK H; [exact H |].
  cbn [router.serve_all].
  destruct (serve_keeps r w FK H) as [S K].
  rewrite <- S. apply IH; rewrite S; assumption.
Qed.

Lemma consistency_is_invariant_witness :
  consistent sample_settings
    (db (router.serve_all
           [router.POST_services_id_versions
              (gin.mkContext [] "service-2"
                 (inr (Version.mk "" "" "0.2.0" "draft" "More work" "")));
            router.DELETE_services_id (GET [] "service-1");
            router.POST_services
              (gin.mkContext [] "" (inr (Service.mk "" "Maps" "maps" "Tiles" "" "" 9)))]
           seeded_world)) = true.
Proof.
  apply (consistency_is_invariant _ seeded_world); vm_compute; reflexivity.
Defined.

(** ** Counting the versions again *)

(** X11: the statement that closes the seed (of the migration and of the
    integration tests) sets the counters right on any store it is accepted
    on: afterwards every service row counts exactly the versions stored for
    its id; the versions and the ids, names, slugs and descriptions of the
    services are untouched; and on a store whose counters are already right
    it changes nothing. *)
Theorem recount_establishes_counts cfg now (st st' : mysql.Store) (n : Z) :
  seed.recount cfg now st = inr (st', n) ->
  counts_consistent cfg st' = true /\
  mysql.versions_table st' = mysql.versions_table st /\
  Forall2 (fun r r' =>
             mysql.services.id r' = mysql.services.id r /\
             mysql.services.name r' = mysql.services.name r /\
             mysql.services.slug r' = mysql.services.slug r /\
             mysql.services.description r' = mysql.services.description r /\
             mysql.services.created_at r' = mysql.services.created_at r)
          (mysql.services_table st) (mysql.services_table st') /\
  (counts_consistent cfg st = true -> st' = st).
Proof.
  unfold seed.recount.
  destruct (existsb _ _); [discriminate |].
  intros [= <- _]. cbn [mysql.services_table mysql.versions_table].
  split; [| split; [reflexivity | split]].
  - unfold counts_consistent, counted. cbn [mysql.services_table mysql.versions_table].
    rewrite forallb_of_map. apply forallb_forall. intros r _.
    fold (seed.versions_of cfg st r).
    destruct (Z.eqb_spec (mysql.services.versions_count r) (seed.versions_of cfg st r))
      as [E | _]; cbn [negb].
    + fold (seed.versions_of cfg st r). now apply Z.eqb_eq.
    + cbn. apply Z.eqb_refl.
  - induction (mysql.services_table st) as [| r rows IH]; cbn [map]; constructor;
      [| exact IH].
    destruct (negb _); cbn; repeat split.
  - unfold counts_consistent, counted. intros C. destruct st as [rows vs].
    cbn [mysql.services_table mysql.versions_table] in *. f_equal.
    rewrite forallb_forall in C.
    rewrite <- (map_id rows) at 2. apply map_ext_in. intros r Hr.
    unfold seed.versions_of. cbn [mysql.versions_table].
    now rewrite (C r Hr).
Qed.

Lemma recount_establishes_counts_witness :
  counts_consistent sample_settings seeded = true /\
  map mysql.services.versions_count (mysql.services_table seeded) = [2; 1; 1].
Proof.
  split; [| reflexivity].
  destruct (recount_establishes_counts sample_settings seed_time inserted seeded 3)
    as [H _]; [vm_compute; reflexivity | exact H].
Defined.

(** ** Pages of a listing *)

Lemma place_In {A} (before : A -> A -> bool) (x y : A) (l : list A) :
  In y (mysql.place before x l) <-> y = x \/ In y l.
Proof.
  induction l as [| z l IH]; cbn; [intuition auto |].
  destruct (before z x); cbn; rewrite ?IH; intuition auto.
Qed.

Lemma order_by_In {A} (before : A -> A -> bool) (y : A) (l : list A) :
  In y (mysql.order_by before l) <-> In y l.
Proof.
  unfold mysql.order_by. induction l as [| x l IH]; cbn; [tauto |].
  rewrite place_In, IH. intuition auto.
Qed.



Lemma window_In {T} (limit offset : Z) (l : list T) (x : T) :
  In x (window limit offset l) -> In x l.
Proof.
  unfold window. intros H.
  rewrite <- (firstn_skipn (Z.to_nat offset) l). apply in_or_app. right.
  rewrite <- (firstn_skipn (Z.to_nat limit) (skipn _ l)). apply in_or_app. now left.
Qed.




Lemma limit_offset_accepted {A} (limit offset : Z) (l rows : list A) :
  mysql.limit_offset limit offset l = inr rows ->
  rows = window limit offset l /\ 0 <= limit.
Proof.
  unfold mysql.limit_offset.
  destruct (Z.ltb_spec limit 0); [discriminate |].
  destruct (Z.ltb_spec offset 0); [discriminate |].
  intros [= <-]. auto.
Qed.

Lemma collect_from {R T} (scan : R -> T) (rows : list R) (acc : list T) :
  fold_left (fun xs r => append xs (scan r)) rows (Some acc)
    = Some (acc ++ map scan rows).
Proof.
  revert acc. induction rows as [| r rows IH]; intros acc; cbn.
  - now rewrite app_nil_r.
  - rewrite IH, <- app_assoc. reflexivity.
Qed.

(** The loop appends every row, in order; over no rows it leaves the nil
    slice. *)
Lemma collect_spec {R T} (scan : R -> T) (rows : list R) :
  items (database.collect scan rows) = map scan rows /\
  (database.collect scan rows = None <-> rows = []).
Proof.
  unfold database.collect. destruct rows as [| r rows]; cbn.
  - split; [reflexivity | tauto].
  - rewrite collect_from. cbn. split; [reflexivity |]. split; discriminate.
Qed.

(** *** What the accessors return, whatever the driver does *)

Lemma GetServices_data (params : PaginationParams.t) (w : World) :
  data_of (database.GetServices params w) = [] \/
  exists rows,
    mysql.select_services
      (PaginationParams.PageSize params)
      (GoInt.mul (GoInt.sub (PaginationParams.Page params) 1)
                 (PaginationParams.PageSize params)) (db w) = inr rows /\
    data_of (database.GetServices params w) = map database.scan_service rows.
Proof.
  unfold database.GetServices.
  unfold data_of, sql.QueryRow, sql.Query, sql.attempt, bind, ret.
  destruct w as [st cfg now [| [f |] [| [g |] fs]] ent k lg]; cbn;
    try (left; reflexivity);
    destruct (mysql.select_services _ _ st) as [msg | rows]; cbn;
    try (left; reflexivity);
    right; exists rows; (split; [reflexivity | apply collect_spec]).
Qed.

Lemma SearchServices_data (params : SearchParams.t) (w : World) :
  data_of (database.SearchServices params w) = [] \/
  exists rows,
    mysql.select_search (settings w)
      (SearchParams.Query params) (SearchParams.PageSize params)
      (GoInt.mul (GoInt.sub (SearchParams.Page params) 1)
                 (SearchParams.PageSize params)) (db w) = inr rows /\
    data_of (database.SearchServices params w) = map database.scan_service rows.
Proof.
  unfold database.SearchServices.
  unfold data_of, sql.QueryRow, sql.Query, sql.attempt, bind, ret.
  destruct w as [st cfg now [| [f |] [| [g |] fs]] ent k lg]; cbn;
    try (left; reflexivity);
    destruct (mysql.select_search cfg _ _ _ st) as [msg | rows]; cbn;
    try (left; reflexivity);
    right; exists rows; (split; [reflexivity | apply collect_spec]).
Qed.

Lemma GetVersions_data (serviceID : string) (params : PaginationParams.t) (w : World) :
  data_of (database.GetVersions serviceID params w) = [] \/
  exists rows,
    mysql.select_versions (settings w) serviceID
      (PaginationParams.PageSize params)
      (GoInt.mul (GoInt.sub (PaginationParams.Page params) 1)
                 (PaginationParams.PageSize params)) (db w) = inr rows /\
    data_of (database.GetVersions serviceID params w) = map database.scan_version rows.
Proof.
  unfold database.GetVersions.
  unfold data_of, sql.QueryRow, sql.Query, sql.attempt, bind, ret.
  destruct w as [st cfg now [| [f |] [| [g |] fs]] ent k lg]; cbn;
    try (left; reflexivity);
    destruct (mysql.select_versions cfg _ _ _ st) as [msg | rows]; cbn;
    try (left; reflexivity);
    right; exists rows; (split; [reflexivity | apply collect_spec]).
Qed.

Lemma Forall_scanned {R T} (scan : R -> T) (P : R -> Prop) (rows : list R) :
  (forall r, In r rows -> P r) ->
  Forall (fun x => exists r, P r /\ x = scan r) (map scan rows).
Proof.
  intros H. apply Forall_forall. intros x Hx.
  apply in_map_iff in Hx as (r & <- & Hr). exists r. auto.
Qed.

(** X12: a list accessor returns nothing but stored rows that its query
    selects, and never more of them than the page size, for all parameters
    and whatever the driver does: every service listed is a row of
    [services]; every service found by a search is a row of [services] that
    matches the query; every version listed is a row of [versions] whose
    service id is the one asked for. *)
Theorem list_accessors_return_stored_rows (w : World) :
  (forall params,
     Forall (fun s => exists r, In r (mysql.services_table (db w)) /\
                                s = database.scan_service r)
            (data_of (database.GetServices params w)) /\
     Z.of_nat (List.length (data_of (database.GetServices params w)))
       <= Z.max 0 (PaginationParams.PageSize params)) /\
  (forall params,
     Forall (fun s => exists r,
                 (In r (mysql.services_table (db w)) /\
                  mysql.matches (settings w) (SearchParams.Query params) r = true) /\
                 s = database.scan_service r)
            (data_of (database.SearchServices params w)) /\
     Z.of_nat (List.length (data_of (database.SearchServices params w)))
       <= Z.max 0 (SearchParams.PageSize params)) /\
  (forall serviceID params,
     Forall (fun v => exists r,
                 (In r (mysql.versions_table (db w)) /\
                  mysql.coll_eqb (settings w) (mysql.versions.service_id r) serviceID
                    = true) /\
                 v = database.scan_version r)
            (data_of (database.GetVersions serviceID params w)) /\
     Z.of_nat (List.length (data_of (database.GetVersions serviceID params w)))
       <= Z.max 0 (PaginationParams.PageSize params)).
Proof.
  split; [| split].
  - intros params.
    destruct (GetServices_data params w) as [-> | (rows & E & ->)];
      [split; [constructor | cbn; lia] |].
    apply limit_offset_accepted in E as [-> Hl]. split.
    + apply Forall_scanned. intros r Hr.
      apply window_In in Hr. now apply order_by_In in Hr.
    + rewrite length_map. unfold window. rewrite length_firstn. lia.
  - intros params.
    destruct (SearchServices_data params w) as [-> | (rows & E & ->)];
      [split; [constructor | cbn; lia] |].
    apply limit_offset_accepted in E as [-> Hl]. split.
    + apply Forall_scanned. intros r Hr.
      apply window_In in Hr. apply order_by_In in Hr. now apply filter_In in Hr.
    + rewrite length_map. unfold window. rewrite length_firstn. lia.
  - intros serviceID params.
    destruct (GetVersions_data serviceID params w) as [-> | (rows & E & ->)];
      [split; [constructor | cbn; lia] |].
    apply limit_offset_accepted in E as [-> Hl]. split.
    + apply Forall_scanned. intros r Hr.
      apply window_In in Hr. apply order_by_In in Hr. now apply filter_In in Hr.
    + rewrite length_map. unfold window. rewrite length_firstn. lia.
Qed.

(** *** The offset *)

Lemma wrap_mul_wrap (a b : Z) : GoInt.mul (GoInt.wrap a) b = GoInt.wrap (a * b).
Proof.
  unfold GoInt.mul, GoInt.wrap. f_equal.
  rewrite (Z.mod_eq (a + 2 ^ 63) (2 ^ 64)) by lia.
  replace ((a + 2 ^ 63 - 2 ^ 64 * ((a + 2 ^ 63) / 2 ^ 64) - 2 ^ 63) * b + 2 ^ 63)
    with (a * b + 2 ^ 63 + (- ((a + 2 ^ 63) / 2 ^ 64) * b) * 2 ^ 64) by ring.
  now rewrite Z_mod_plus_full.
Qed.

Lemma offset_wraps (page pageSize : Z) :
  GoInt.mul (GoInt.sub page 1) pageSize = GoInt.wrap ((page - 1) * pageSize).
Proof. unfold GoInt.sub. apply wrap_mul_wrap. Qed.


(** *** The metadata *)



(** *** The accessors on a connection that does not fail *)









(** *** Walking the pages *)







Example two_pages_of_two :
  total_pages 2 3 = 2 /\
  map Service.ID (data_of (database.GetServices (PaginationParams.mk 1 2) seeded_world))
    = ["service-1"; "service-2"] /\
  map Service.ID (data_of (database.GetServices (PaginationParams.mk 2 2) seeded_world))
    = ["service-3"].
Proof. vm_compute. repeat split. Qed.

(** *** Pages whose offset does not fit *)

Lemma offset_alias (page distance pageSize : Z) :
  (distance * pageSize) mod 2 ^ 64 = 0 ->
  GoInt.mul (GoInt.sub (page + distance) 1) pageSize
    = GoInt.mul (GoInt.sub page 1) pageSize.
Proof.
  intros H. rewrite !offset_wraps. unfold GoInt.wrap. f_equal.
  replace ((page + distance - 1) * pageSize + 2 ^ 63)
    with (((page - 1) * pageSize + 2 ^ 63) + distance * pageSize) by ring.
  rewrite Zplus_mod, H, Z.add_0_r. apply Zmod_mod.
Qed.

(** X15: the offset [(page - 1) * page_size] is computed in 64 bits, so
    two pages whose offsets differ by a multiple of [2^64] are served the
    same rows: for every page size and every [distance] with
    [distance * page_size] a multiple of [2^64], each list accessor returns
    for page [page + distance] exactly what it returns for [page].  With
    [page_size = 100] page [2^62 + 1] is the first page again. *)
Theorem far_pages_alias (page distance pageSize : Z) (w : World) :
  (distance * pageSize) mod 2 ^ 64 = 0 ->
  database.GetServices (PaginationParams.mk (page + distance) pageSize) w
    = database.GetServices (PaginationParams.mk page pageSize) w /\
  (forall q,
     database.SearchServices (SearchParams.mk q (page + distance) pageSize) w
       = database.SearchServices (SearchParams.mk q page pageSize) w) /\
  (forall serviceID,
     database.GetVersions serviceID (PaginationParams.mk (page + distance) pageSize) w
       = database.GetVersions serviceID (PaginationParams.mk page pageSize) w).
Proof.
  intros H.
  unfold database.GetServices, database.SearchServices, database.GetVersions.
  cbn [PaginationParams.Page PaginationParams.PageSize
       SearchParams.Page SearchParams.PageSize SearchParams.Query].
  rewrite (offset_alias page distance pageSize H). auto.
Qed.

Lemma far_pages_alias_witness :
  database.GetServices (PaginationParams.mk (1 + 2 ^ 62) 100) seeded_world
    = database.GetServices (PaginationParams.mk 1 100) seeded_world.
Proof.
  destruct (far_pages_alias 1 (2 ^ 62) 100 seeded_world eq_refl) as [H _]. exact H.
Defined.

Example far_page_is_the_first_page_again :
  let far := GET [("page", "4611686018427387905"); ("page_size", "100")] "" in
  let first := GET [("page", "1"); ("page_size", "100")] "" in
  PaginationParams.Page (utils.GetPaginationParams far) = 2 ^ 62 + 1 /\
  status_of (fst (handlers.GetServices far seeded_world)) = Some http.StatusOK /\
  option_map (json.member "data") (body_of (fst (handlers.GetServices far seeded_world)))
    = option_map (json.member "data")
                 (body_of (fst (handlers.GetServices first seeded_world))).
Proof. vm_compute. repeat split. Qed.

(** ** Unique names and slugs *)

Lemma insert_service_free cfg now id name slug description st st' n :
  mysql.insert_service cfg now id name slug description st = inr (st', n) ->
  existsb (fun r => mysql.coll_eqb cfg (mysql.services.name r) name)
          (mysql.services_table st) = false /\
  existsb (fun r => mysql.coll_eqb cfg (mysql.services.slug r) slug)
          (mysql.services_table st) = false.
Proof.
  unfold mysql.insert_service.
  destruct (existsb (mysql.id_is cfg id) _); [discriminate |].
  destruct (existsb _ _); [discriminate |].
  destruct (existsb _ _); [discriminate |]. auto.
Qed.

(** X20: names and slugs are unique.  A create request whose name or slug
    a stored service already has (under the collation of the unique keys) is
    answered 500 and stores nothing; and a create request that is answered
    201 had a free name and a free slug, drew an id no service had, and has
    added exactly one row to the store: the drawn id, the three fields of
    the body, the server's time, no versions. *)
Theorem CreateService_refuses_duplicates
        (c : gin.Context Service.t) (body : Service.t) (w : World) :
  gin.ShouldBindJSON c = inr body ->
  (taken (settings w) body (db w) = true ->
   status_of (fst (handlers.CreateService c w)) = Some http.StatusInternalServerError /\
   db (snd (handlers.CreateService c w)) = db w) /\
  (status_of (fst (handlers.CreateService c w)) = Some http.StatusCreated ->
   taken (settings w) body (db w) = false /\
   existsb (mysql.id_is (settings w) (uuid.String_ (entropy w (drawn w))))
           (mysql.services_table (db w)) = false /\
   db (snd (handlers.CreateService c w))
     = mysql.mkStore
         (mysql.services_table (db w) ++
          [mysql.services.mk (uuid.String_ (entropy w (drawn w)))
             (Service.Name body) (Service.Slug body) (Service.Description body)
             (clock w) (clock w) 0])
         (mysql.versions_table (db w))).
Proof.
  intros E. unfold handlers.CreateService, database.CreateService. rewrite E.
  unfold uuid.New, bind, ret. cbv zeta.
  set (w1 := set_drawn _ w).
  set (s := mysql.INSERT_INTO_services _ _ _ _).
  destruct (Exec_cases s w1) as [_ [(e & E1 & D) | (st & n & X & E1 & D)]];
    destruct (sql.Exec s w1) as [r w2]; cbn [fst snd] in *; subst r; cbn.
  - split; [intros _; split; [reflexivity | exact D] | discriminate].
  - subst s w1. cbn in X.
    pose proof (insert_service_free _ _ _ _ _ _ _ _ _ X) as [Xn Xs].
    apply insert_service_accepted in X as [Fresh ->].
    unfold taken. rewrite Xn, Xs. split; [discriminate |].
    intros _. split; [reflexivity | split; [exact Fresh | exact D]].
Qed.

Lemma CreateService_refuses_duplicates_witness :
  status_of (fst (handlers.CreateService
                    (gin.mkContext [] ""
                       (inr (Service.mk "" "Unique Service" "test-service-1"
                                        "Duplicate slug service" "" "" 0)))
                    seeded_world))
    = Some http.StatusInternalServerError.
Proof.
  destruct (CreateService_refuses_duplicates
              (gin.mkContext [] ""
                 (inr (Service.mk "" "Unique Service" "test-service-1"
                                  "Duplicate slug service" "" "" 0)))
              _ seeded_world eq_refl) as [H _].
  apply H. vm_compute. reflexivity.
Defined.

(** ** Deleting a service *)

(** X22: in a session that enforces the foreign key, a delete that is
    answered 200 has removed, with the service, every version of it and no
    other version: the versions left are those of the other services, in
    their order, and a count of the deleted service's versions gives 0. *)
Theorem deleted_service_has_no_versions {B : Type} (g : gin.Context B) (w : World) :
  mysql.foreign_key_checks (settings w) = true ->
  status_of (fst (handlers.DeleteService g w)) = Some http.StatusOK ->
  let after := db (snd (handlers.DeleteService g w)) in
  mysql.versions_table after
    = filter (fun v => negb (mysql.of_service (settings w) (gin.Param g) v))
             (mysql.versions_table (db w)) /\
  mysql.count_versions (settings w) (gin.Param g) after = 0 /\
  existsb (mysql.id_is (settings w) (gin.Param g)) (mysql.services_table after) = false.
Proof.
  intros FK. cbn zeta.
  unfold handlers.DeleteService, database.DeleteService.
  set (s := mysql.DELETE_FROM_services _).
  unfold bind, ret.
  destruct (Exec_cases s w) as [_ [(e & E & D) | (st & n & X & E & D)]];
    destruct (sql.Exec s w) as [r w2]; cbn [fst snd] in *; subst r; cbn;
    [discriminate |].
  destruct (Z.eqb_spec n 0) as [-> | N]; cbn; [discriminate |]. intros _.
  rewrite D. subst s. cbn [mysql.execute] in X.
  revert X. unfold mysql.delete_service. rewrite FK. cbn [andb].
  intros [= <- Hn]. rewrite Hn.
  assert (0 <= n) by (subst n; unfold mysql.count; lia).
  destruct (Z.ltb_spec 0 n) as [_ | ?]; [| lia].
  cbn [mysql.versions_table mysql.services_table].
  split; [reflexivity |]. split.
  - unfold mysql.count_versions. cbn [mysql.versions_table].
    apply count_zero. apply (existsb_filter_out (mysql.of_service (settings w) (gin.Param g))).
  - apply existsb_filter_out.
Qed.

Lemma deleted_service_has_no_versions_witness :
  map mysql.versions.id
      (mysql.versions_table
         (db (snd (handlers.DeleteService (GET [] "service-1") seeded_world))))
    = ["version-3"; "version-4"].
Proof.
  destruct (deleted_service_has_no_versions (GET [] "service-1") seeded_world
              eq_refl eq_refl) as [H _].
  rewrite H. reflexivity.
Defined.

(** ** The log of a version creation *)

(** X21: every version creation that succeeds writes an error to the log.
    The deferred function rolls the transaction back after it has been
    committed; [Rollback] then returns [sql.ErrTxDone], which is not nil,
    and the function logs it.  Whenever [CreateVersion] returns nil the log
    has grown by exactly that one line. *)
Theorem committed_creation_logs_a_rollback_error (version : Version.t) (w : World) :
  fst (database.CreateVersion version w) = None ->
  log_lines (snd (database.CreateVersion version w))
    = log_lines w ++
      ["Error rolling back transaction: sql: transaction has already been committed or rolled back"].
Proof.
  unfold database.CreateVersion, database.CreateVersion_body.
  unfold sql.Begin, sql.Tx_Exec, sql.Commit, sql.Rollback, sql.attempt, log.Printf.
  unfold bind, ret.
  destruct w as [st cfg now fs ent k lg]. cbn.
  destruct fs as [| [f1 |] [| [f2 |] [| [f3 |] [| [f4 |] [| [f5 |] fs]]]]]; cbn;
    try discriminate;
    destruct (mysql.insert_version _ _ _ _ _ _ _ _) as [e1 | [st1 n1]]; cbn;
    try discriminate;
    destruct (mysql.update_versions_count _ _ _ _) as [e2 | [st2 n2]]; cbn;
    try discriminate; reflexivity.
Qed.

Lemma committed_creation_logs_a_rollback_error_witness :
  log_lines (snd (database.CreateVersion
                    (Version.mk "v-5" "service-2" "0.2.0" "draft" "More work" "")
                    seeded_world))
    = ["Error rolling back transaction: sql: transaction has already been committed or rolled back"].
Proof.
  apply (committed_creation_logs_a_rollback_error
           (Version.mk "v-5" "service-2" "0.2.0" "draft" "More work" "") seeded_world).
  vm_compute. reflexivity.
Defined.

(** ** The shape of the answers *)

Lemma error_well_formed (code : Z) (text : string) :
  code = http.StatusBadRequest \/ code = http.StatusNotFound \/
  code = http.StatusInternalServerError ->
  well_formed (JSON code (json.H "error" text)).
Proof.
  intros H. exists code, (json.H "error" text).
  split; [reflexivity |]. right. right. split; [exact H | now exists text].
Qed.

Lemma ok_well_formed (obj : json.value) : well_formed (JSON http.StatusOK obj).
Proof. exists http.StatusOK, obj. auto. Qed.

Lemma created_well_formed (obj : json.value) : well_formed (JSON http.StatusCreated obj).
Proof. exists http.StatusCreated, obj. auto. Qed.

Lemma validate_well_formed (page pageSize : Z) (r : Outcome) :
  handlers.validate page pageSize = Some r -> well_formed r.
Proof.
  intros V. apply validate_rejects in V as [[_ ->] | (_ & _ & ->)];
    apply error_well_formed; auto.
Qed.

Lemma paginated_well_formed (page pageSize total : Z) (data : json.value)
      (err : option error) :
  pageSize <> 0 -> well_formed (handlers.paginated page pageSize data total err).
Proof.
  intros H. unfold handlers.paginated. destruct err as [e |].
  - apply error_well_formed; auto.
  - destruct (utils.CalculatePagination page pageSize total) eqn:E.
    + apply ok_well_formed.
    + now apply CalculatePagination_defined in E.
Qed.

Create HintDb answers.

#[local] Hint Resolve error_well_formed ok_well_formed created_well_formed : answers.

(** X23: whatever the route, the request and the state of the store and
    of the driver, a handler answers (it never panics) with 200 or 201, or
    with 400, 404 or 500 and a body of the form [{"error": text}]. *)
Theorem answers_are_well_formed (r : router.Request) (w : World) :
  well_formed (fst (router.serve r w)).
Proof.
  destruct r as [c | c | c | c | c | c | c | c | c]; cbn [router.serve].
  - apply ok_well_formed.
  - unfold handlers.GetServices.
    destruct (handlers.validate _ _) as [r |] eqn:V;
      [now apply validate_well_formed in V |].
    apply validate_passes in V as [? ?].
    run_io. cbn [fst ret]. apply paginated_well_formed. lia.
  - unfold handlers.SearchServices.
    destruct (String.eqb _ ""); [cbn; auto with answers |].
    destruct (handlers.validate _ _) as [r |] eqn:V;
      [now apply validate_well_formed in V |].
    apply validate_passes in V as [? ?].
    run_io. cbn [fst ret]. apply paginated_well_formed. lia.
  - unfold handlers.CreateService.
    destruct (gin.ShouldBindJSON c) as [msg | body]; [cbn; auto with answers |].
    run_io. destruct o; cbn; auto with answers.
  - unfold handlers.GetService.
    run_io. destruct o0 as [[| |] |]; [| | | destruct o]; cbn; auto with answers.
  - unfold handlers.UpdateService.
    destruct (gin.ShouldBindJSON c) as [msg | body]; [cbn; auto with answers |].
    run_io. destruct o; [| destruct (z =? 0)]; cbn; auto with answers.
  - unfold handlers.DeleteService.
    run_io. destruct o; [| destruct (z =? 0)]; cbn; auto with answers.
  - unfold handlers.GetVersions.
    destruct (handlers.validate _ _) as [r |] eqn:V;
      [now apply validate_well_formed in V |].
    apply validate_passes in V as [? ?].
    run_io. cbn [fst ret]. apply paginated_well_formed. lia.
  - unfold handlers.CreateVersion.
    destruct (gin.ShouldBindJSON c) as [msg | body]; [cbn; auto with answers |].
    run_io. destruct o; cbn; auto with answers.
Qed.
